(** * CountryData: the reconciliation pipeline of [src/__main__.py]

    A shallow embedding of the three functions of the program
    ([fetch_centroids], [fetch_un_data] and the [__main__] block) together
    with the small part of pandas they rely on, followed by the properties
    of the reconciled country table.

    Conventions.
    - A Python [str] is the list of its code points ([list N]); equality and
      [<] on strings are the code-point ones, as in Python.
    - A DataFrame is the list of its rows, a row a record of its columns.
      A cell of a column that can hold NaN is an [option].
    - Coordinates are never computed with, only carried: they are rationals
      ([Q]), which contain every finite binary64 value.
    - M49 codes are integers ([Z]).  pandas stores a column with a missing
      value as binary64; the upcast is exact on M49 codes, so the model keeps
      [Z] and marks the missing value with [None].
    - [pd.read_csv], [pd.read_html], [DataFrame.merge], [sort_values],
      [astype] and [to_csv] are library code: they are modelled here from
      their documented behaviour, at the options the program passes. *)

From Stdlib Require Import List Bool Arith NArith ZArith QArith.
From Stdlib Require Import String Ascii Permutation Sorted Lia.
Import ListNotations.
Close Scope Q_scope.

Set Implicit Arguments.

(* ================================================================== *)
(** * Python strings *)

Module PyStr.

Definition str := list N.

(** An ASCII literal as a Python string. *)
Definition lit (s : string) : str :=
  List.map N_of_ascii (list_ascii_of_string s).

Definition eqb (a b : str) : bool :=
  if list_eq_dec N.eq_dec a b then true else false.

(** [str.__lt__] and friends: lexicographic on code points. *)
Fixpoint compare (a b : str) : comparison :=
  match a, b with
  | [], [] => Eq
  | [], _ :: _ => Lt
  | _ :: _, [] => Gt
  | x :: a', y :: b' =>
      match N.compare x y with
      | Eq => compare a' b'
      | c => c
      end
  end.

Definition leb (a b : str) : bool :=
  match compare a b with Gt => false | _ => true end.

(** [str.isspace] on one code point (CPython's [_PyUnicode_IsWhitespace]). *)
Definition isspace (c : N) : bool :=
  (((9 <=? c) && (c <=? 13)) || ((28 <=? c) && (c <=? 32))
   || (c =? 133) || (c =? 160) || (c =? 5760)
   || ((8192 <=? c) && (c <=? 8202))
   || (c =? 8232) || (c =? 8233) || (c =? 8239) || (c =? 8287)
   || (c =? 12288))%N.

Fixpoint lstrip (s : str) : str :=
  match s with
  | c :: s' => if isspace c then lstrip s' else s
  | [] => []
  end.

Definition rstrip (s : str) : str := rev (lstrip (rev s)).

(** [str.strip()] with no argument. *)
Definition strip (s : str) : str := rstrip (lstrip s).

End PyStr.

Abbreviation str := PyStr.str.
Abbreviation lit := PyStr.lit.

(* ================================================================== *)
(** * The part of pandas the program uses *)

Module Pandas.

(** [cell == s] on a cell of an object column, which holds a string or NaN
    ([None]); NaN equals no string. *)
Definition eq_cell (c : option str) (s : str) : bool :=
  match c with
  | Some x => PyStr.eqb x s
  | None => false
  end.

(** ** Reading: [keep_default_na] *)

(** The strings [read_csv] and [read_html] turn into NaN by default. *)
Definition default_na_values : list str :=
  List.map lit
    [ EmptyString; "#N/A"; "#N/A N/A"; "#NA"; "-1.#IND"; "-1.#QNAN"; "-NaN";
      "-nan"; "1.#IND"; "1.#QNAN"; "<NA>"; "N/A"; "NA"; "NULL"; "NaN";
      "None"; "n/a"; "nan"; "null" ]%string.

(** One text cell of a string column, as the reader stores it. *)
Definition read_cell (keep_default_na : bool) (text : str) : option str :=
  if keep_default_na && existsb (PyStr.eqb text) default_na_values
  then None
  else Some text.

(** ** Ordering of a column for [sort_values]: ascending, NaN last. *)
Definition key_leb (a b : option str) : bool :=
  match a, b with
  | Some x, Some y => PyStr.leb x y
  | _, None => true
  | None, Some _ => false
  end.

Definition sorted_by {A} (key : A -> option str) (l : list A) : Prop :=
  StronglySorted (fun a b => key_leb (key a) (key b) = true) l.

(** [sort_values(by=col)] with the default [kind='quicksort'], which is
    not stable: the result is some rearrangement of the rows that is
    ascending in the column, NaN last.  Nothing more is assumed of it. *)
Class SortValues := {
  sort_values : forall A : Type, (A -> option str) -> list A -> list A;
  sort_values_perm :
    forall A (key : A -> option str) l, Permutation l (sort_values key l);
  sort_values_sorted :
    forall A (key : A -> option str) l, sorted_by key (sort_values key l)
}.
Arguments sort_values {_} {A} key l.

(** One such sort, to run the pipeline on concrete tables. *)
Fixpoint insert_by {A} (key : A -> option str) (x : A) (l : list A) : list A :=
  match l with
  | [] => [x]
  | y :: l' =>
      if key_leb (key x) (key y) then x :: l
      else y :: insert_by key x l'
  end.

Definition insertion_sort {A} (key : A -> option str) (l : list A) : list A :=
  fold_right (insert_by key) [] l.

(** ** [merge]

    Two rows match when their key cells are equal; pandas matches a NaN key
    with a NaN key. *)
Definition key_eqb (a b : option str) : bool :=
  match a, b with
  | Some x, Some y => PyStr.eqb x y
  | None, None => true
  | _, _ => false
  end.

Inductive indicator := left_only | right_only | both.

Definition is_left_only (i : indicator) : bool :=
  match i with left_only => true | _ => false end.

(** [left.merge(right, how='left', indicator=True)] where [right] has the
    key columns only: every left row once per matching right row, or once
    with [left_only] when none matches, in the order of [left]. *)
Definition merge_left_indicator {L R} (on : L -> R -> bool)
    (left : list L) (right : list R) : list (L * indicator) :=
  flat_map
    (fun l =>
       match filter (on l) right with
       | [] => [(l, left_only)]
       | ms => List.map (fun _ => (l, both)) ms
       end)
    left.

(** [pd.merge(left, right, how='outer')]: a left row paired with each right
    row of the same key, or alone; then the right rows no left row matches.
    pandas orders the result by key; the order chosen here is immaterial
    to what follows, which sorts the table again. *)
Definition merge_outer {L R} (on : L -> R -> bool)
    (left : list L) (right : list R) : list (option L * option R) :=
  flat_map
    (fun l =>
       match filter (on l) right with
       | [] => [(Some l, None)]
       | ms => List.map (fun r => (Some l, Some r)) ms
       end)
    left
  ++ List.map (fun r => (None, Some r))
       (filter (fun r => negb (existsb (fun l => on l r) left)) right).

(** ** Exceptions *)
Inductive exn := IntCastingNaNError | KeyError.

Inductive result (A : Type) :=
| Ok (a : A)
| Raise (e : exn).
Arguments Raise {A} e.

(** ** [astype(int)] on a column that may hold NaN *)
Fixpoint astype_int (col : list (option Z)) : result (list Z) :=
  match col with
  | [] => Ok []
  | None :: _ => Raise IntCastingNaNError
  | Some z :: col' =>
      match astype_int col' with
      | Ok zs => Ok (z :: zs)
      | Raise e => Raise e
      end
  end.

(** ** Writing *)

(** A value of the written table. *)
Inductive value :=
| VStr (s : str)
| VInt (z : Z)
| VFloat (q : Q)
| VBool (b : bool)
| VNaN.

Definition value_of {A} (f : A -> value) (c : option A) : value :=
  match c with Some a => f a | None => VNaN end.

Record Csv := {
  header : list string;
  records : list (list value)
}.

(** [to_csv(path, index=...)]: the header row, then one record per row;
    with [index=True] a leading unnamed column numbers the rows. *)
Definition to_csv (index : bool) (columns : list string)
    (rows : list (list value)) : Csv :=
  {| header := (if index then [EmptyString] else []) ++ columns;
     records :=
       List.map
         (fun ir : nat * list value =>
            (if index then [VInt (Z.of_nat (fst ir))] else []) ++ snd ir)
         (combine (seq 0 (List.length rows)) rows) |}.

End Pandas.

Import Pandas.

(* ================================================================== *)
(** * The tables of the program *)

(** A row of the centroid CSV ([countries.csv] of the centroid source).
    [C] is the type of a string cell: [str] for the text of the file,
    [option str] once read. *)
Record RawCentroid (C : Type) := {
  raw_longitude : Q;
  raw_latitude : Q;
  COUNTRY : C;
  ISO : C;
  COUNTRYAFF : C;
  AFF_ISO : C
}.

(** A row of the frame [fetch_centroids] returns. *)
Record Centroid := {
  c_longitude : Q;
  c_latitude : Q;
  c_country : option str;
  iso : option str
}.

(** A row of the UN table [downloadTableEN], at the columns the program
    names (the others are never used and are dropped by the selection). *)
Record RawUn (C : Type) := {
  Country_or_Area : C;
  M49_Code : Z;
  Region_Name : C;
  Sub_region_Name : C;
  ISO_alpha3_Code : C;
  ISO_alpha2_Code : C;
  Least_Developed_Countries_LDC : C
}.

(** The frame of [fetch_un_data] after [rename], before the selection. *)
Record RenamedUn := {
  rn_country : option str;
  rn_m49 : Z;
  rn_region : option str;
  rn_subregion : option str;
  rn_iso3 : option str;
  rn_iso2 : option str;
  rn_Least_Developed_Countries_LDC : option str;
  rn_ldc : bool
}.

(** A row of the frame [fetch_un_data] returns:
    [df[['region', 'subregion', 'm49', 'iso3', 'iso2', 'ldc']]]. *)
Record Classification := {
  un_region : option str;
  un_subregion : option str;
  un_m49 : Z;
  un_iso3 : option str;
  un_iso2 : option str;
  un_ldc : bool
}.

(** A row of [merged] after [drop(columns=['iso'])]. *)
Record Merged := {
  region : option str;
  subregion : option str;
  m49 : option Z;
  iso3 : option str;
  iso2 : option str;
  ldc : option bool;
  longitude : option Q;
  latitude : option Q;
  country : option str
}.

(** A row of [merged] once the columns [m49_comtrade] and
    [non_country_region] exist.  [T] is [option Z] while the column may
    hold NaN and [Z] after [astype(int)]. *)
Record Row (T : Type) := {
  cols : Merged;
  m49_comtrade : T;
  non_country_region : bool
}.

(* ================================================================== *)
(** * [fetch_centroids] *)

(** [pd.read_csv(url, keep_default_na=...)] on the string columns. *)
Definition read_csv (keep_default_na : bool) (file : list (RawCentroid str))
    : list (RawCentroid (option str)) :=
  List.map
    (fun l =>
       {| raw_longitude := raw_longitude l;
          raw_latitude := raw_latitude l;
          COUNTRY := read_cell keep_default_na (COUNTRY l);
          ISO := read_cell keep_default_na (ISO l);
          COUNTRYAFF := read_cell keep_default_na (COUNTRYAFF l);
          AFF_ISO := read_cell keep_default_na (AFF_ISO l) |})
    file.

(** The rows [{'ISO': ..., 'COUNTRY': ...}] of [_exclude_rows]. *)
Definition _exclude_rows : list (str * str) :=
  [ (lit "TF", lit "Juan De Nova Island");
    (lit "TF", lit "Glorioso Islands");
    (lit "BQ", lit "Saba");
    (lit "BQ", lit "Saint Eustatius");
    (lit "ES", lit "Canarias") ].

(** [on=['ISO', 'COUNTRY']]. *)
Definition on_ISO_COUNTRY (r : RawCentroid (option str)) (e : str * str) : bool :=
  eq_cell (ISO r) (fst e) && eq_cell (COUNTRY r) (snd e).

(** [centroids_df['ISO'] = centroids_df['ISO'].str.strip()]. *)
Definition strip_ISO (r : RawCentroid (option str)) : RawCentroid (option str) :=
  {| raw_longitude := raw_longitude r; raw_latitude := raw_latitude r;
     COUNTRY := COUNTRY r; ISO := option_map PyStr.strip (ISO r);
     COUNTRYAFF := COUNTRYAFF r; AFF_ISO := AFF_ISO r |}.

(** [centroids_df['COUNTRY'] = centroids_df['COUNTRY'].str.strip()]. *)
Definition strip_COUNTRY (r : RawCentroid (option str)) : RawCentroid (option str) :=
  {| raw_longitude := raw_longitude r; raw_latitude := raw_latitude r;
     COUNTRY := option_map PyStr.strip (COUNTRY r); ISO := ISO r;
     COUNTRYAFF := COUNTRYAFF r; AFF_ISO := AFF_ISO r |}.

(** [.drop(columns=['COUNTRYAFF', 'AFF_ISO']).rename(columns={'ISO': 'iso',
    'COUNTRY': 'country'})]. *)
Definition drop_rename (r : RawCentroid (option str)) : Centroid :=
  {| c_longitude := raw_longitude r; c_latitude := raw_latitude r;
     c_country := COUNTRY r; iso := ISO r |}.

Definition Aland_Islands : str := 197%N :: lit "land Islands".

Definition _missing_lat_lon : list Centroid :=
  [ {| c_country := Some (lit "Hong Kong"); iso := Some (lit "HK");
       c_latitude := 22.3964%Q; c_longitude := 114.1095%Q |};
    {| c_country := Some (lit "Macau"); iso := Some (lit "MO");
       c_latitude := 22.2109%Q; c_longitude := 113.5525%Q |};
    {| c_country := Some Aland_Islands; iso := Some (lit "AX");
       c_latitude := 60.25%Q; c_longitude := 20.0%Q |};
    {| c_country := Some (lit "Western Sahara"); iso := Some (lit "EH");
       c_latitude := 24.5%Q; c_longitude := (-13)%Q |} ].

(** The rows that survive the exclusion:
    [_merge[_merge['_merge'] == 'left_only'].drop('_merge', axis=1)]. *)
Definition not_excluded (centroids_df_raw : list (RawCentroid (option str)))
    : list (RawCentroid (option str)) :=
  let _merge :=
    merge_left_indicator on_ISO_COUNTRY centroids_df_raw _exclude_rows in
  List.map fst (filter (fun x => is_left_only (snd x)) _merge).

Section Centroids.

Context {SV : SortValues}.

Definition fetch_centroids (file : list (RawCentroid str)) : list Centroid :=
  let centroids_df_raw := read_csv false file in
  let centroids_df := not_excluded centroids_df_raw in
  let centroids_df := List.map strip_ISO centroids_df in
  let centroids_df := List.map strip_COUNTRY centroids_df in
  let centroids_df :=
    List.map drop_rename (sort_values (fun r => ISO r) centroids_df) in
  centroids_df ++ _missing_lat_lon.

End Centroids.

(* ================================================================== *)
(** * [fetch_un_data] *)

(** [pd.read_html(..., keep_default_na=...)[0]] on the string columns. *)
Definition read_html (keep_default_na : bool) (table : list (RawUn str))
    : list (RawUn (option str)) :=
  List.map
    (fun l =>
       {| Country_or_Area := read_cell keep_default_na (Country_or_Area l);
          M49_Code := M49_Code l;
          Region_Name := read_cell keep_default_na (Region_Name l);
          Sub_region_Name := read_cell keep_default_na (Sub_region_Name l);
          ISO_alpha3_Code := read_cell keep_default_na (ISO_alpha3_Code l);
          ISO_alpha2_Code := read_cell keep_default_na (ISO_alpha2_Code l);
          Least_Developed_Countries_LDC :=
            read_cell keep_default_na (Least_Developed_Countries_LDC l) |})
    table.

(** [df['ldc'] = df[...].apply(lambda x: True if x == 'x' else False)]
    followed by [df.rename(columns={...})]. *)
Definition ldc_rename (r : RawUn (option str)) : RenamedUn :=
  {| rn_country := Country_or_Area r;
     rn_m49 := M49_Code r;
     rn_region := Region_Name r;
     rn_subregion := Sub_region_Name r;
     rn_iso3 := ISO_alpha3_Code r;
     rn_iso2 := ISO_alpha2_Code r;
     rn_Least_Developed_Countries_LDC := Least_Developed_Countries_LDC r;
     rn_ldc :=
       if eq_cell (Least_Developed_Countries_LDC r) (lit "x")
       then true else false |}.

(** [df[['region', 'subregion', 'm49', 'iso3', 'iso2', 'ldc']].copy()]. *)
Definition select_un (r : RenamedUn) : Classification :=
  {| un_region := rn_region r;
     un_subregion := rn_subregion r;
     un_m49 := rn_m49 r;
     un_iso3 := rn_iso3 r;
     un_iso2 := rn_iso2 r;
     un_ldc := rn_ldc r |}.

Definition fetch_un_data (table : list (RawUn str)) : list Classification :=
  let df := read_html false table in
  let df := List.map ldc_rename df in
  List.map select_un df.

(* ================================================================== *)
(** * The [__main__] block *)

(** [left_on='iso2', right_on='iso']. *)
Definition on_iso2_iso (l : Classification) (r : Centroid) : bool :=
  key_eqb (un_iso2 l) (iso r).

(** A row of the outer merge, column by column, and the [iso] column next
    to it: a side that is missing leaves its columns NaN. *)
Definition merged_row (p : option Classification * option Centroid)
    : Merged * option str :=
  let (l, r) := p in
  ({| region := match l with Some l => un_region l | None => None end;
      subregion := match l with Some l => un_subregion l | None => None end;
      m49 := option_map un_m49 l;
      iso3 := match l with Some l => un_iso3 l | None => None end;
      iso2 := match l with Some l => un_iso2 l | None => None end;
      ldc := option_map un_ldc l;
      longitude := option_map c_longitude r;
      latitude := option_map c_latitude r;
      country := match r with Some r => c_country r | None => None end |},
   match r with Some r => iso r | None => None end).

(** [pd.merge(un_data, centroids, left_on='iso2', right_on='iso',
    how='outer').drop(columns=['iso'])]. *)
Definition merge_tables (un_data : list Classification)
    (centroids : list Centroid) : list Merged :=
  List.map (fun p => fst (merged_row p))
    (merge_outer on_iso2_iso un_data centroids).

(** The dict [alternate_comtrade_m49_codes], in its order. *)
Definition alternate_comtrade_m49_codes : list (Z * str) :=
  [ (251%Z, lit "France");
    (579%Z, lit "Norway");
    (699%Z, lit "India");
    (757%Z, lit "Switzerland");
    (842%Z, lit "United States") ].

(** [f"Country {country_name} not found in merged."]. *)
Definition not_found_message (country_name : str) : str :=
  lit "Country " ++ country_name ++ lit " not found in merged.".

(** One turn of the loop over [alternate_comtrade_m49_codes.items()].
    The state is [merged] with its column [m49_comtrade], and what has
    been printed. *)
Definition comtrade_turn (st : list (Merged * option Z) * list str)
    (item : Z * str) : list (Merged * option Z) * list str :=
  let (merged, printed) := st in
  let (m49_code, country_name) := item in
  if negb (existsb (fun r => eq_cell (country (fst r)) country_name) merged)
  then (merged, printed ++ [not_found_message country_name])
  else
    (List.map
       (fun r =>
          if eq_cell (country (fst r)) country_name
          then (fst r, Some m49_code)
          else r)
       merged,
     printed).

(** [merged['m49_comtrade'] = merged['m49']], then the loop. *)
Definition comtrade (merged : list Merged)
    : list (Merged * option Z) * list str :=
  fold_left comtrade_turn alternate_comtrade_m49_codes
    (List.map (fun r => (r, m49 r)) merged, []).

Definition m49_non_country : list (Z * option str * str) :=
  [ (899%Z, None, lit "NES");
    (568%Z, Some (lit "Europe"), lit "NES");
    (490%Z, Some (lit "Asia"), lit "NES");
    (577%Z, Some (lit "Africa"), lit "NES");
    (837%Z, None, lit "Bunkers");
    (838%Z, None, lit "Free Zones");
    (839%Z, None, lit "Special Categories") ].

(** A row of [_non_country_df]: the tuple under the columns [m49], [region]
    and [country], then [m49_comtrade] copied from [m49], [ldc = False] and
    [non_country_region = True]; as [pd.concat] aligns it with [merged], the
    columns the frame does not have are NaN. *)
Definition non_country_row (t : Z * option str * str) : Row (option Z) :=
  let '(code, reg, name) := t in
  {| cols :=
       {| region := reg; subregion := None; m49 := Some code;
          iso3 := None; iso2 := None; ldc := Some false;
          longitude := None; latitude := None; country := Some name |};
     m49_comtrade := Some code;
     non_country_region := true |}.

Definition _non_country_df : list (Row (option Z)) :=
  List.map non_country_row m49_non_country.

(** [merged["m49_comtrade"] = merged["m49_comtrade"].astype(int)]. *)
Definition astype_int_m49_comtrade (merged : list (Row (option Z)))
    : result (list (Row Z)) :=
  match astype_int (List.map (fun r => m49_comtrade r) merged) with
  | Ok ints =>
      Ok (List.map
            (fun ri : Row (option Z) * Z =>
               {| cols := cols (fst ri); m49_comtrade := snd ri;
                  non_country_region := non_country_region (fst ri) |})
            (combine merged ints))
  | Raise e => Raise e
  end.

(** The column of the final frame of a given name, as the function that
    reads it off a row; [None] when the frame has no such column. *)
Definition column (name : string) : option (Row Z -> value) :=
  if String.eqb name "region" then
    Some (fun r => value_of VStr (region (cols r)))
  else if String.eqb name "subregion" then
    Some (fun r => value_of VStr (subregion (cols r)))
  else if String.eqb name "m49" then
    Some (fun r => value_of VInt (m49 (cols r)))
  else if String.eqb name "iso3" then
    Some (fun r => value_of VStr (iso3 (cols r)))
  else if String.eqb name "iso2" then
    Some (fun r => value_of VStr (iso2 (cols r)))
  else if String.eqb name "ldc" then
    Some (fun r => value_of VBool (ldc (cols r)))
  else if String.eqb name "longitude" then
    Some (fun r => value_of VFloat (longitude (cols r)))
  else if String.eqb name "latitude" then
    Some (fun r => value_of VFloat (latitude (cols r)))
  else if String.eqb name "country" then
    Some (fun r => value_of VStr (country (cols r)))
  else if String.eqb name "m49_comtrade" then
    Some (fun r => VInt (m49_comtrade r))
  else if String.eqb name "non_country_region" then
    Some (fun r => VBool (non_country_region r))
  else None.

Fixpoint columns (names : list string) : result (list (Row Z -> value)) :=
  match names with
  | [] => Ok []
  | n :: names' =>
      match column n, columns names' with
      | Some g, Ok gs => Ok (g :: gs)
      | None, _ => Raise KeyError
      | _, Raise e => Raise e
      end
  end.

(** [merged[[names]]]: [KeyError] when a name is not a column. *)
Definition select (names : list string) (merged : list (Row Z))
    : result (list (list value)) :=
  match columns names with
  | Ok gs => Ok (List.map (fun r => List.map (fun g => g r) gs) merged)
  | Raise e => Raise e
  end.

Definition output_columns : list string :=
  [ "region"; "subregion"; "country"; "iso2"; "iso3"; "m49"; "m49_comtrade";
    "latitude"; "longitude"; "ldc"; "non_country_region" ]%string.

Section Program.

Context {SV : SortValues}.

(** The block from the merge to the final [sort_values]: what was printed,
    and the final frame or the exception that ended the run. *)
Definition reconcile (un_data : list Classification)
    (centroids : list Centroid) : list str * result (list (Row Z)) :=
  let merged := merge_tables un_data centroids in
  let (merged, printed) := comtrade merged in
  let merged :=
    List.map
      (fun r =>
         {| cols := fst r; m49_comtrade := snd r;
            non_country_region := false |})
      merged in
  let merged := merged ++ _non_country_df in
  match astype_int_m49_comtrade merged with
  | Raise e => (printed, Raise e)
  | Ok merged =>
      (printed, Ok (sort_values (fun r => country (cols r)) merged))
  end.

(** The whole run on the two downloaded tables: what was printed, and the
    file written (or the exception, in which case no file is written). *)
Definition main (file : list (RawCentroid str)) (table : list (RawUn str))
    : list str * result Csv :=
  let centroids := fetch_centroids file in
  let un_data := fetch_un_data table in
  match reconcile un_data centroids with
  | (printed, Raise e) => (printed, Raise e)
  | (printed, Ok merged) =>
      match select output_columns merged with
      | Raise e => (printed, Raise e)
      | Ok selected =>
          (printed
             ++ [ lit "Country data has been fetched and saved to 'countries.csv'.";
                  lit "You can now use this data in your application." ],
           Ok (to_csv false output_columns selected))
      end
  end.

End Program.

(* ================================================================== *)
(** * Vocabulary of the properties *)

(** The number of right rows a left row matches in a merge, and the number
    of left rows a right row matches. *)
Definition matches_of {L R} (on : L -> R -> bool) (right : list R) (l : L)
    : nat :=
  List.length (filter (on l) right).

Definition partners_of {L R} (on : L -> R -> bool) (left : list L) (r : R)
    : nat :=
  List.length (filter (fun l => on l r) left).

(** The pair of cells is one of the five rows of [_exclude_rows]. *)
Definition excluded_pair (i c : option str) : bool :=
  existsb (fun e : str * str => eq_cell i (fst e) && eq_cell c (snd e))
    _exclude_rows.

(** A row of the centroid file as it leaves the cleaning: both string
    fields trimmed, the two auxiliary columns gone. *)
Definition cleaned (r : RawCentroid (option str)) : Centroid :=
  {| c_longitude := raw_longitude r;
     c_latitude := raw_latitude r;
     c_country := option_map PyStr.strip (COUNTRY r);
     iso := option_map PyStr.strip (ISO r) |}.

(** The frame of [fetch_centroids] before the manual rows are appended. *)
Definition sorted_part {SV : SortValues} (file : list (RawCentroid str))
    : list Centroid :=
  List.map drop_rename
    (sort_values (fun r => ISO r)
       (List.map strip_COUNTRY
          (List.map strip_ISO (not_excluded (read_csv false file))))).

(** A centroid file row with the given ISO code and country name. *)
Definition csv_row (i c : str) : RawCentroid str :=
  {| raw_longitude := 2.5%Q; raw_latitude := 46.5%Q;
     COUNTRY := c; ISO := i; COUNTRYAFF := c; AFF_ISO := i |}.

(** A row of the UN table as the cleaning leaves it: the six selected
    columns, each string cell kept as the string it was read from. *)
Definition classification_of (l : RawUn str) : Classification :=
  {| un_region := Some (Region_Name l);
     un_subregion := Some (Sub_region_Name l);
     un_m49 := M49_Code l;
     un_iso3 := Some (ISO_alpha3_Code l);
     un_iso2 := Some (ISO_alpha2_Code l);
     un_ldc := PyStr.eqb (Least_Developed_Countries_LDC l) (lit "x") |}.

(** The same row of the UN table under another country name. *)
Definition with_country (name_of : RawUn str -> str) (l : RawUn str)
    : RawUn str :=
  {| Country_or_Area := name_of l;
     M49_Code := M49_Code l;
     Region_Name := Region_Name l;
     Sub_region_Name := Sub_region_Name l;
     ISO_alpha3_Code := ISO_alpha3_Code l;
     ISO_alpha2_Code := ISO_alpha2_Code l;
     Least_Developed_Countries_LDC := Least_Developed_Countries_LDC l |}.

(** A row of the UN table with the given name, M49 code and ISO codes, of
    a country that is not a least developed one. *)
Definition un_row (name : str) (code : Z) (i2 i3 : str) : RawUn str :=
  {| Country_or_Area := name;
     M49_Code := code;
     Region_Name := lit "Europe";
     Sub_region_Name := lit "Western Europe";
     ISO_alpha3_Code := i3;
     ISO_alpha2_Code := i2;
     Least_Developed_Countries_LDC := [] |}.

(** The Comtrade code of a merged row, in the words of the specification:
    the override code when the country is an override name, the M49 code
    otherwise. *)
Definition remapped (r : Merged) : option Z :=
  match
    find (fun e : Z * str => eq_cell (country r) (snd e))
      alternate_comtrade_m49_codes
  with
  | Some (code, _) => Some code
  | None => m49 r
  end.

(** One message per override whose name no row of [merged] has, in the
    order of the override table. *)
Definition diagnostics (merged : list Merged) : list str :=
  List.map (fun e : Z * str => not_found_message (snd e))
    (filter
       (fun e : Z * str =>
          negb (existsb (fun r => eq_cell (country r) (snd e)) merged))
       alternate_comtrade_m49_codes).

(** What one turn of the loop does to a row of [merged]. *)
Definition overwrite (item : Z * str) (r : Merged * option Z)
    : Merged * option Z :=
  if eq_cell (country (fst r)) (snd item) then (fst r, Some (fst item)) else r.

(** The country of a centroid row is one of the five override names. *)
Definition is_override_name (c : option str) : bool :=
  existsb (fun e : Z * str => eq_cell c (snd e)) alternate_comtrade_m49_codes.

(** A merged row carries the six fields of a classification row. *)
Definition carries_classification (l : Classification) (m : Merged) : Prop :=
  region m = un_region l /\ subregion m = un_subregion l
  /\ m49 m = Some (un_m49 l) /\ iso3 m = un_iso3 l /\ iso2 m = un_iso2 l
  /\ ldc m = Some (un_ldc l).

(** A merged row carries the country and the coordinates of a centroid row
    (its [iso] column is dropped after the merge). *)
Definition carries_centroid (c : Centroid) (m : Merged) : Prop :=
  longitude m = Some (c_longitude c) /\ latitude m = Some (c_latitude c)
  /\ country m = c_country c.

Definition no_classification (m : Merged) : Prop :=
  region m = None /\ subregion m = None /\ m49 m = None /\ iso3 m = None
  /\ iso2 m = None /\ ldc m = None.

Definition no_centroid (m : Merged) : Prop :=
  longitude m = None /\ latitude m = None /\ country m = None.

(** A merged row with its two added columns, before [pd.concat]. *)
Definition source_row (r : Merged) : Row (option Z) :=
  {| cols := r; m49_comtrade := remapped r; non_country_region := false |}.

(** The frame [merged] after [pd.concat], before [astype(int)]. *)
Definition before_coercion (un_data : list Classification)
    (centroids : list Centroid) : list (Row (option Z)) :=
  List.map source_row (merge_tables un_data centroids) ++ _non_country_df.

(** A row of the final frame as it was before [astype(int)]. *)
Definition uncoerced (r : Row Z) : Row (option Z) :=
  {| cols := cols r; m49_comtrade := Some (m49_comtrade r);
     non_country_region := non_country_region r |}.

(** The seven synthetic rows in the final frame. *)
Definition non_country_rows : list (Row Z) :=
  List.map
    (fun t : Z * option str * str =>
       let '(code, reg, name) := t in
       {| cols :=
            {| region := reg; subregion := None; m49 := Some code;
               iso3 := None; iso2 := None; ldc := Some false;
               longitude := None; latitude := None; country := Some name |};
          m49_comtrade := code;
          non_country_region := true |})
    m49_non_country.

(** The record written for a row: its eleven values, in the output order. *)
Definition row_values (r : Row Z) : list value :=
  [ value_of VStr (region (cols r));
    value_of VStr (subregion (cols r));
    value_of VStr (country (cols r));
    value_of VStr (iso2 (cols r));
    value_of VStr (iso3 (cols r));
    value_of VInt (m49 (cols r));
    VInt (m49_comtrade r);
    value_of VFloat (latitude (cols r));
    value_of VFloat (longitude (cols r));
    value_of VBool (ldc (cols r));
    VBool (non_country_region r) ].

(** The four manual territories in the UN table. *)
Definition un_manual_rows : list (RawUn str) :=
  [ un_row (lit "China, Hong Kong Special Administrative Region") 344
      (lit "HK") (lit "HKG");
    un_row (lit "China, Macao Special Administrative Region") 446
      (lit "MO") (lit "MAC");
    un_row Aland_Islands 248 (lit "AX") (lit "ALA");
    un_row (lit "Western Sahara") 732 (lit "EH") (lit "ESH") ].

(** The country written in a record: its third value. *)
Definition record_country (rec : list value) : option str :=
  match nth 2 rec VNaN with
  | VStr s => Some s
  | _ => None
  end.

(** A row of the centroid file with every text cell kept as a string. *)
Definition kept (l : RawCentroid str) : RawCentroid (option str) :=
  {| raw_longitude := raw_longitude l;
     raw_latitude := raw_latitude l;
     COUNTRY := Some (COUNTRY l);
     ISO := Some (ISO l);
     COUNTRYAFF := Some (COUNTRYAFF l);
     AFF_ISO := Some (AFF_ISO l) |}.

(** A string does not start with a whitespace character. *)
Definition starts_clean (s : str) : bool :=
  match s with
  | [] => true
  | c :: _ => negb (PyStr.isspace c)
  end.

(** A string has no whitespace at either end. *)
Definition edge_trimmed (s : str) : bool :=
  starts_clean s && starts_clean (rev s).

(** The record written for a row of the UN table that no centroid row
    matches: no country, no coordinates, the Comtrade code equal to the
    M49 code. *)
Definition un_only_record (u : RawUn str) : list value :=
  [ VStr (Region_Name u);
    VStr (Sub_region_Name u);
    VNaN;
    VStr (ISO_alpha2_Code u);
    VStr (ISO_alpha3_Code u);
    VInt (M49_Code u);
    VInt (M49_Code u);
    VNaN;
    VNaN;
    VBool (PyStr.eqb (Least_Developed_Countries_LDC u) (lit "x"));
    VBool false ].


(* ================================================================== *)
(** * Facts about strings and their order *)

Module PyStrFacts.

Lemma eqb_eq (a b : str) : PyStr.eqb a b = true <-> a = b.
Proof.
  unfold PyStr.eqb. destruct (list_eq_dec N.eq_dec a b); split; congruence.
Qed.

Lemma eqb_refl (a : str) : PyStr.eqb a a = true.
Proof. now apply eqb_eq. Qed.

Lemma compare_antisym (a b : str) :
  PyStr.compare b a = CompOpp (PyStr.compare a b).
Proof.
  revert b. induction a as [|x a IH]; intros [|y b]; simpl; try reflexivity.
  rewrite (N.compare_antisym x y).
  destruct (N.compare x y); simpl; auto.
Qed.

Lemma compare_eq (a b : str) : PyStr.compare a b = Eq -> a = b.
Proof.
  revert b. induction a as [|x a IH]; intros [|y b]; simpl;
    try discriminate; auto.
  destruct (N.compare x y) eqn:E; try discriminate.
  apply N.compare_eq in E. intros H. f_equal; auto.
Qed.

Lemma compare_lt_trans (a b c : str) :
  PyStr.compare a b = Lt -> PyStr.compare b c = Lt -> PyStr.compare a c = Lt.
Proof.
  revert b c. induction a as [|x a IH]; intros [|y b] [|z c]; simpl;
    try discriminate; auto.
  destruct (N.compare x y) eqn:Exy; try discriminate;
    destruct (N.compare y z) eqn:Eyz; try discriminate; intros H1 H2.
  - apply N.compare_eq in Exy, Eyz. subst.
    rewrite N.compare_refl. eauto.
  - apply N.compare_eq in Exy. subst. now rewrite Eyz.
  - apply N.compare_eq in Eyz. subst. now rewrite Exy.
  - rewrite N.compare_lt_iff in Exy, Eyz.
    assert (E : (x ?= z)%N = Lt) by (apply N.compare_lt_iff; lia).
    now rewrite E.
Qed.

Lemma leb_total (a b : str) : PyStr.leb a b = false -> PyStr.leb b a = true.
Proof.
  unfold PyStr.leb. rewrite (compare_antisym a b).
  destruct (PyStr.compare a b); simpl; congruence.
Qed.

Lemma leb_refl (a : str) : PyStr.leb a a = true.
Proof.
  destruct (PyStr.leb a a) eqn:E; auto.
  pose proof (leb_total _ _ E). congruence.
Qed.

Lemma leb_trans (a b c : str) :
  PyStr.leb a b = true -> PyStr.leb b c = true -> PyStr.leb a c = true.
Proof.
  unfold PyStr.leb.
  destruct (PyStr.compare a b) eqn:Eab; try discriminate;
    destruct (PyStr.compare b c) eqn:Ebc; try discriminate; intros _ _.
  - apply compare_eq in Eab, Ebc. subst. fold (PyStr.leb c c).
    apply leb_refl.
  - apply compare_eq in Eab. subst. now rewrite Ebc.
  - apply compare_eq in Ebc. subst. now rewrite Eab.
  - now rewrite (compare_lt_trans _ _ _ Eab Ebc).
Qed.

End PyStrFacts.

(* ================================================================== *)
(** * Facts about the pandas model *)

Module PandasFacts.

Lemma eq_cell_true (c : option str) (s : str) :
  eq_cell c s = true <-> c = Some s.
Proof.
  destruct c as [x|]; simpl.
  - rewrite PyStrFacts.eqb_eq. split; congruence.
  - split; discriminate.
Qed.

Lemma key_eqb_eq (a b : option str) : key_eqb a b = true <-> a = b.
Proof.
  destruct a as [x|], b as [y|]; simpl; try (split; congruence).
  rewrite PyStrFacts.eqb_eq. split; congruence.
Qed.

Lemma key_leb_total (a b : option str) :
  key_leb a b = false -> key_leb b a = true.
Proof.
  destruct a, b; simpl; auto using PyStrFacts.leb_total; discriminate.
Qed.

Lemma key_leb_trans (a b c : option str) :
  key_leb a b = true -> key_leb b c = true -> key_leb a c = true.
Proof.
  destruct a, b, c; simpl; eauto using PyStrFacts.leb_trans; discriminate.
Qed.

Section InsertionSort.

Variable A : Type.
Variable key : A -> option str.

Lemma insert_by_perm (x : A) (l : list A) :
  Permutation (x :: l) (insert_by key x l).
Proof.
  induction l as [|y l IH]; simpl; auto.
  destruct (key_leb (key x) (key y)); auto.
  rewrite perm_swap. now constructor.
Qed.

Lemma insertion_sort_perm (l : list A) : Permutation l (insertion_sort key l).
Proof.
  induction l as [|x l IH]; simpl; auto.
  rewrite <- insert_by_perm. now constructor.
Qed.

Lemma insert_by_sorted (x : A) (l : list A) :
  sorted_by key l -> sorted_by key (insert_by key x l).
Proof.
  unfold sorted_by.
  induction l as [|y l IH]; simpl; intros Hs.
  - repeat constructor.
  - apply StronglySorted_inv in Hs. destruct Hs as [Hs Hy].
    destruct (key_leb (key x) (key y)) eqn:E.
    + constructor.
      * now constructor.
      * constructor; auto.
        eapply Forall_impl; [|exact Hy].
        intros a Ha. eapply key_leb_trans; eauto.
    + constructor; auto.
      apply (Permutation_Forall (insert_by_perm x l)).
      constructor; auto. now apply key_leb_total.
Qed.

Lemma insertion_sort_sorted (l : list A) : sorted_by key (insertion_sort key l).
Proof.
  induction l as [|x l IH]; simpl.
  - constructor.
  - now apply insert_by_sorted.
Qed.

End InsertionSort.

End PandasFacts.

(** The insertion sort is a [sort_values]. *)
#[local] Instance insertion_sort_values : SortValues := {|
  sort_values := fun A key l => insertion_sort key l;
  sort_values_perm := PandasFacts.insertion_sort_perm;
  sort_values_sorted := PandasFacts.insertion_sort_sorted
|}.

(* ================================================================== *)
(** * Facts about the two merges *)

Module MergeFacts.

Section Merge.

Variables L R : Type.
Variable on : L -> R -> bool.

(** The left merge with indicator keeps, as [left_only], the rows that match
    no right row, in their order. *)
Lemma left_only_rows (left : list L) (right : list R) :
  List.map fst
    (filter (fun x => is_left_only (snd x))
       (merge_left_indicator on left right))
  = filter (fun l => negb (existsb (on l) right)) left.
Proof.
  unfold merge_left_indicator.
  induction left as [|l left IH]; [reflexivity|].
  cbn [flat_map]. rewrite filter_app, map_app, IH. clear IH.
  cbn [filter].
  assert (E : existsb (on l) right = negb (forallb (fun r => negb (on l r)) right)).
  { clear. induction right as [|r right IH]; simpl; [reflexivity|].
    rewrite IH. now destruct (on l r). }
  assert (F : filter (on l) right = [] <-> forallb (fun r => negb (on l r)) right = true).
  { clear. induction right as [|r right IH]; simpl; [tauto|].
    destruct (on l r); simpl; [split; discriminate|exact IH]. }
  rewrite E, negb_involutive.
  destruct (filter (on l) right) as [|m ms] eqn:Em.
  - destruct F as [F _]. rewrite (F eq_refl). reflexivity.
  - destruct (forallb (fun r => negb (on l r)) right) eqn:Ef.
    + destruct F as [_ F]. discriminate (F eq_refl).
    + assert (G : forall k : list R,
                 filter (fun x : L * indicator => is_left_only (snd x))
                   (List.map (fun _ => (l, both)) k) = []).
      { induction k; simpl; auto. }
      rewrite G. reflexivity.
Qed.

Lemma filter_nil_iff (f : R -> bool) (l : list R) :
  filter f l = [] <-> forall r, In r l -> f r = false.
Proof.
  induction l as [|a l IH]; simpl.
  - split; auto. intros _ r [].
  - destruct (f a) eqn:E.
    + split; [discriminate|]. intros H. rewrite (H a) in E; auto. discriminate.
    + rewrite IH. split.
      * intros H r [<-|Hr]; auto.
      * intros H r Hr. apply H. auto.
Qed.

(** The rows of the outer merge: joined pairs, left rows alone, right rows
    alone. *)
Lemma in_merge_outer (left : list L) (right : list R)
    (p : option L * option R) :
  In p (merge_outer on left right) <->
  (exists l r, p = (Some l, Some r) /\ In l left /\ In r right /\ on l r = true)
  \/ (exists l, p = (Some l, None) /\ In l left
                /\ forall r, In r right -> on l r = false)
  \/ (exists r, p = (None, Some r) /\ In r right
                /\ forall l, In l left -> on l r = false).
Proof.
  unfold merge_outer. rewrite in_app_iff, in_flat_map, in_map_iff. split.
  - intros [[l [Hl Hp]]|[r [Hp Hr]]].
    + destruct (filter (on l) right) as [|m ms] eqn:E.
      * destruct Hp as [<-|[]]. right; left. exists l. repeat split; auto.
        now apply filter_nil_iff.
      * rewrite <- E in Hp. apply in_map_iff in Hp.
        destruct Hp as [r [<- Hr]]. apply filter_In in Hr.
        left. exists l, r. tauto.
    + apply filter_In in Hr. destruct Hr as [Hr Hn].
      right; right. exists r. repeat split; auto.
      intros l Hl. destruct (on l r) eqn:E; auto.
      assert (X : existsb (fun l => on l r) left = true)
        by (apply existsb_exists; eauto).
      rewrite X in Hn. discriminate.
  - intros [[l [r [-> [Hl [Hr E]]]]]|[[l [-> [Hl Hn]]]|[r [-> [Hr Hn]]]]].
    + left. exists l. split; auto.
      assert (Hf : In r (filter (on l) right)) by (apply filter_In; auto).
      destruct (filter (on l) right) as [|m ms] eqn:Em; [destruct Hf|].
      rewrite <- Em. apply in_map_iff. exists r. rewrite Em. auto.
    + left. exists l. split; auto.
      apply filter_nil_iff in Hn. rewrite Hn. now left.
    + right. exists r. split; auto. apply filter_In. split; auto.
      destruct (existsb (fun l => on l r) left) eqn:E; auto.
      apply existsb_exists in E. destruct E as [l [Hl E]].
      rewrite (Hn l Hl) in E. discriminate.
Qed.

(** ** Counting the rows of the outer merge *)

Lemma length_merge_outer (left : list L) (right : list R) :
  List.length (merge_outer on left right)
  = list_sum (List.map (fun l => Nat.max 1 (matches_of on right l)) left)
    + List.length (filter (fun r => negb (existsb (fun l => on l r) left)) right).
Proof.
  unfold merge_outer. rewrite length_app, length_map, length_flat_map.
  f_equal. f_equal. apply map_ext. intros l. unfold matches_of.
  destruct (filter (on l) right) as [|m ms]; [reflexivity|].
  rewrite length_map. simpl. reflexivity.
Qed.

Lemma list_sum_map_add {A} (f g : A -> nat) (l : list A) :
  list_sum (List.map (fun a => f a + g a) l)
  = list_sum (List.map f l) + list_sum (List.map g l).
Proof. induction l; simpl; lia. Qed.

Lemma length_filter_sum {A} (f : A -> bool) (l : list A) :
  List.length (filter f l)
  = list_sum (List.map (fun a => if f a then 1 else 0) l).
Proof. induction l as [|a l IH]; simpl; auto. destruct (f a); simpl; lia. Qed.

(** Counting the matching pairs by their left row or by their right row. *)
Lemma matches_partners (left : list L) (right : list R) :
  list_sum (List.map (matches_of on right) left)
  = list_sum (List.map (partners_of on left) right).
Proof.
  induction left as [|l left IH]; simpl.
  - induction right; simpl; auto.
  - rewrite IH. unfold matches_of at 1. rewrite length_filter_sum.
    rewrite <- list_sum_map_add. f_equal. apply map_ext. intros r.
    unfold partners_of. simpl. destruct (on l r); simpl; lia.
Qed.

Lemma list_sum_map_le {A} (f g : A -> nat) (l : list A) :
  (forall a, In a l -> f a <= g a) ->
  list_sum (List.map f l) <= list_sum (List.map g l).
Proof.
  induction l as [|a l IH]; simpl; intros H; auto.
  specialize (H a (or_introl eq_refl)) as Ha.
  assert (list_sum (List.map f l) <= list_sum (List.map g l)) by auto.
  lia.
Qed.

Lemma list_sum_map_const {A} (l : list A) :
  list_sum (List.map (fun _ => 1) l) = List.length l.
Proof. induction l; simpl; auto. Qed.

Lemma partners_unmatched (left : list L) (r : R) :
  partners_of on left r = 0 <-> existsb (fun l => on l r) left = false.
Proof.
  unfold partners_of. induction left as [|l left IH]; simpl; [tauto|].
  destruct (on l r); simpl; [split; discriminate|exact IH].
Qed.

Lemma merge_outer_ge_left (left : list L) (right : list R) :
  List.length left <= List.length (merge_outer on left right).
Proof.
  rewrite length_merge_outer, <- (list_sum_map_const left).
  pose proof (list_sum_map_le (fun _ => 1)
                (fun l => Nat.max 1 (matches_of on right l)) left) as H.
  assert (list_sum (List.map (fun _ : L => 1) left)
          <= list_sum (List.map (fun l => Nat.max 1 (matches_of on right l)) left))
    by (apply H; intros; lia).
  lia.
Qed.

Lemma merge_outer_ge_right (left : list L) (right : list R) :
  List.length right <= List.length (merge_outer on left right).
Proof.
  rewrite length_merge_outer, length_filter_sum.
  assert (H1 : list_sum (List.map (matches_of on right) left)
               <= list_sum (List.map (fun l => Nat.max 1 (matches_of on right l)) left))
    by (apply list_sum_map_le; intros; lia).
  rewrite matches_partners in H1.
  rewrite <- (list_sum_map_const right).
  assert (H2 : list_sum (List.map (fun _ : R => 1) right)
               <= list_sum (List.map
                              (fun r => partners_of on left r
                                        + (if negb (existsb (fun l => on l r) left)
                                           then 1 else 0)) right)).
  { apply list_sum_map_le. intros r _.
    destruct (existsb (fun l => on l r) left) eqn:E; simpl; [|lia].
    destruct (partners_of on left r) eqn:P; [|lia].
    apply partners_unmatched in P. congruence. }
  rewrite list_sum_map_add in H2. lia.
Qed.

(** When no key occurs twice on one of the sides, no row is multiplied. *)
Lemma merge_outer_le_sum (left : list L) (right : list R) :
  (forall l, In l left -> matches_of on right l <= 1)
  \/ (forall r, In r right -> partners_of on left r <= 1) ->
  List.length (merge_outer on left right)
  <= List.length left + List.length right.
Proof.
  rewrite length_merge_outer. intros [H|H].
  - assert (H1 : list_sum (List.map (fun l => Nat.max 1 (matches_of on right l)) left)
                 <= list_sum (List.map (fun _ => 1) left)).
    { apply list_sum_map_le. intros l Hl. specialize (H l Hl). lia. }
    rewrite list_sum_map_const in H1.
    pose proof (filter_length_le
                  (fun r => negb (existsb (fun l => on l r) left)) right).
    lia.
  - assert (H1 : list_sum (List.map (fun l => Nat.max 1 (matches_of on right l)) left)
                 <= list_sum (List.map (fun l => 1 + matches_of on right l) left)).
    { apply list_sum_map_le. intros; lia. }
    rewrite (list_sum_map_add (fun _ => 1)), list_sum_map_const in H1.
    rewrite matches_partners in H1.
    rewrite length_filter_sum.
    assert (H2 : list_sum (List.map
                             (fun r => partners_of on left r
                                       + (if negb (existsb (fun l => on l r) left)
                                          then 1 else 0)) right)
                 <= list_sum (List.map (fun _ => 1) right)).
    { apply list_sum_map_le. intros r Hr. specialize (H r Hr).
      destruct (existsb (fun l => on l r) left) eqn:E; simpl; [lia|].
      apply partners_unmatched in E. lia. }
    rewrite list_sum_map_add, list_sum_map_const in H2. lia.
Qed.

End Merge.

End MergeFacts.

(* ================================================================== *)
(** * Step 1: the cleaned centroid table *)

Module CentroidFacts.

Lemma sorted_by_map {A B} (f : A -> B) (key : B -> option str) (l : list A) :
  sorted_by (fun a => key (f a)) l -> sorted_by key (List.map f l).
Proof.
  unfold sorted_by. induction 1 as [|a l Hs IH Ha]; simpl; constructor; auto.
  apply Forall_map. exact Ha.
Qed.

Lemma NoDup_app_iff {A} (l1 l2 : list A) :
  NoDup (l1 ++ l2) <->
  NoDup l1 /\ NoDup l2 /\ (forall a, In a l1 -> ~ In a l2).
Proof.
  split.
  - intros H. split; [|split].
    + eapply NoDup_app_remove_r; eauto.
    + eapply NoDup_app_remove_l; eauto.
    + induction l1 as [|x l1 IH]; simpl in *; [tauto|].
      apply NoDup_cons_iff in H. destruct H as [Hx H].
      intros a [<-|Ha].
      * intros Hin. apply Hx. apply in_or_app. now right.
      * now apply IH.
  - intros [H1 [H2 H]]. now apply NoDup_app.
Qed.

Lemma cell_eq_dec (a b : option str) : {a = b} + {a <> b}.
Proof. repeat decide equality. Qed.

Lemma on_ISO_COUNTRY_excluded (r : RawCentroid (option str)) :
  existsb (on_ISO_COUNTRY r) _exclude_rows = excluded_pair (ISO r) (COUNTRY r).
Proof. reflexivity. Qed.

Lemma not_excluded_filter (df : list (RawCentroid (option str))) :
  not_excluded df
  = filter (fun r => negb (excluded_pair (ISO r) (COUNTRY r))) df.
Proof.
  unfold not_excluded. cbv zeta. rewrite MergeFacts.left_only_rows.
  apply filter_ext. intros r. now rewrite on_ISO_COUNTRY_excluded.
Qed.

Lemma excluded_pair_true (i c : option str) :
  excluded_pair i c = true <->
  exists e, In e _exclude_rows /\ i = Some (fst e) /\ c = Some (snd e).
Proof.
  unfold excluded_pair. rewrite existsb_exists. split.
  - intros [e [He H]]. apply andb_true_iff in H. destruct H as [H1 H2].
    apply PandasFacts.eq_cell_true in H1, H2. eauto.
  - intros [e [He [-> ->]]]. exists e. split; auto.
    simpl. now rewrite !PyStrFacts.eqb_refl.
Qed.

Section WithSort.

Context {SV : SortValues}.

Lemma fetch_centroids_app (file : list (RawCentroid str)) :
  fetch_centroids file = sorted_part file ++ _missing_lat_lon.
Proof. reflexivity. Qed.

Lemma sorted_part_perm (file : list (RawCentroid str)) :
  Permutation (sorted_part file)
    (List.map cleaned (not_excluded (read_csv false file))).
Proof.
  unfold sorted_part.
  rewrite <- (sort_values_perm (fun r : RawCentroid (option str) => ISO r)).
  rewrite !map_map. apply Permutation_refl.
Qed.

Lemma sorted_part_sorted (file : list (RawCentroid str)) :
  sorted_by iso (sorted_part file).
Proof.
  unfold sorted_part. apply sorted_by_map.
  apply (sort_values_sorted (fun r : RawCentroid (option str) => ISO r)).
Qed.

End WithSort.

End CentroidFacts.

(* ================================================================== *)
(** * Properties of Step 1 *)

Section Step1.

Context {SV : SortValues}.

(** C5 (amended).  The exclusion compares the fields as read, before any
    trimming: a row of the file is removed if and only if its ISO code and
    its country name, untrimmed, are both those of one of the five excluded
    pairs; a row that differs from every excluded pair in one of the two
    fields survives.  The rows that survive are then trimmed, and the
    cleaned table is made of them and of the four manual rows. *)
Theorem exclusion_compares_untrimmed_fields (file : list (RawCentroid str)) :
  let df := read_csv false file in
  not_excluded df
    = filter (fun r => negb (excluded_pair (ISO r) (COUNTRY r))) df
  /\ (forall r, In r df ->
        (In r (not_excluded df) <->
         forall e, In e _exclude_rows ->
                   ISO r <> Some (fst e) \/ COUNTRY r <> Some (snd e)))
  /\ Permutation (fetch_centroids file)
       (List.map cleaned (not_excluded df) ++ _missing_lat_lon).
Proof.
  intros df. split; [|split].
  - apply CentroidFacts.not_excluded_filter.
  - intros r Hr. rewrite CentroidFacts.not_excluded_filter, filter_In.
    split.
    + intros [_ Hn] e He.
      destruct (CentroidFacts.cell_eq_dec (ISO r) (Some (fst e))) as [Ei|Ei]; auto.
      destruct (CentroidFacts.cell_eq_dec (COUNTRY r) (Some (snd e))) as [Ec|Ec]; auto.
      assert (X : excluded_pair (ISO r) (COUNTRY r) = true)
        by (apply CentroidFacts.excluded_pair_true; eauto).
      rewrite X in Hn. discriminate.
    + intros H. split; auto.
      destruct (excluded_pair (ISO r) (COUNTRY r)) eqn:E; auto.
      apply CentroidFacts.excluded_pair_true in E.
      destruct E as [e [He [Ei Ec]]]. destruct (H e He); contradiction.
  - rewrite CentroidFacts.fetch_centroids_app.
    apply Permutation_app_tail, CentroidFacts.sorted_part_perm.
Qed.

(** C7 (amended).  The ISO codes of the cleaned centroid table are pairwise
    distinct exactly when the trimmed ISO codes of the rows that survive
    the exclusion are pairwise distinct and none of them is the code of a
    manual row (HK, MO, AX, EH). *)
Theorem iso_unique_iff_survivors_unique (file : list (RawCentroid str)) :
  let survivors := not_excluded (read_csv false file) in
  NoDup (List.map iso (fetch_centroids file)) <->
  NoDup (List.map (fun r => option_map PyStr.strip (ISO r)) survivors)
  /\ (forall r, In r survivors ->
        ~ In (option_map PyStr.strip (ISO r)) (List.map iso _missing_lat_lon)).
Proof.
  intros survivors.
  rewrite CentroidFacts.fetch_centroids_app, map_app.
  rewrite CentroidFacts.NoDup_app_iff.
  pose proof (Permutation_map iso (CentroidFacts.sorted_part_perm file)) as P.
  rewrite map_map in P. fold survivors in P.
  change (fun x : RawCentroid (option str) => iso (cleaned x))
    with (fun r : RawCentroid (option str) => option_map PyStr.strip (ISO r)) in P.
  assert (M : NoDup (List.map iso _missing_lat_lon)).
  { repeat constructor; simpl; intuition discriminate. }
  split.
  - intros [H1 [_ H3]]. split.
    + eapply Permutation_NoDup; eauto.
    + intros r Hr. apply H3.
      eapply Permutation_in; [symmetry; exact P|].
      apply in_map_iff. eauto.
  - intros [H1 H2]. split; [|split]; auto.
    + eapply Permutation_NoDup; [symmetry; exact P|exact H1].
    + intros a Ha. apply (Permutation_in _ P) in Ha.
      apply in_map_iff in Ha. destruct Ha as [r [<- Hr]]. auto.
Qed.

(** C8 (amended).  The cleaned centroid table is the rows that survive the
    exclusion, trimmed and sorted by ISO code, followed by the four manual
    rows in the order Hong Kong, Macau, Aland Islands, Western Sahara, which
    are appended after the sort and are not sorted in; the sort changes no
    row, it only rearranges them. *)
Theorem sorted_rows_then_manual_rows (file : list (RawCentroid str)) :
  exists rows,
    fetch_centroids file = rows ++ _missing_lat_lon
    /\ sorted_by iso rows
    /\ Permutation rows
         (List.map cleaned (not_excluded (read_csv false file)))
    /\ List.map iso _missing_lat_lon
       = [Some (lit "HK"); Some (lit "MO"); Some (lit "AX"); Some (lit "EH")].
Proof.
  exists (sorted_part file). repeat split.
  - apply CentroidFacts.sorted_part_sorted.
  - apply CentroidFacts.sorted_part_perm.
Qed.

End Step1.

(** C5, counterexample.  The row ("TF ", "Glorioso Islands") becomes an
    excluded pair once trimmed, and is not removed: it is in the cleaned
    table, as ("TF", "Glorioso Islands"). *)
Lemma trimmed_match_survives :
  let file := [csv_row (lit "TF ") (lit "Glorioso Islands")] in
  let r := {| raw_longitude := 2.5%Q; raw_latitude := 46.5%Q;
              COUNTRY := Some (lit "Glorioso Islands");
              ISO := Some (lit "TF ");
              COUNTRYAFF := Some (lit "Glorioso Islands");
              AFF_ISO := Some (lit "TF ") |} in
  read_csv false file = [r]
  /\ excluded_pair (option_map PyStr.strip (ISO r))
       (option_map PyStr.strip (COUNTRY r)) = true
  /\ not_excluded (read_csv false file) = [r]
  /\ fetch_centroids (SV := insertion_sort_values) file
     = {| c_longitude := 2.5%Q; c_latitude := 46.5%Q;
          c_country := Some (lit "Glorioso Islands");
          iso := Some (lit "TF") |} :: _missing_lat_lon.
Proof. repeat split. Qed.

(** C7, counterexample.  A file whose only row has the ISO code HK: the
    cleaned table holds HK twice, once from the file and once from the
    manual rows. *)
Lemma iso_can_repeat :
  let file := [csv_row (lit "HK") (lit "Hong Kong S.A.R.")] in
  List.map iso (fetch_centroids (SV := insertion_sort_values) file)
  = [Some (lit "HK"); Some (lit "HK"); Some (lit "MO"); Some (lit "AX");
     Some (lit "EH")]
  /\ ~ NoDup (List.map iso (fetch_centroids (SV := insertion_sort_values) file)).
Proof.
  split; [reflexivity|].
  intros H. apply NoDup_cons_iff in H. destruct H as [H _].
  apply H. now left.
Qed.

(** C8, counterexample.  On a file with the single row FR the cleaned
    table is FR, HK, MO, AX, EH: MO comes before AX, so the table is not
    sorted by ISO code. *)
Lemma manual_rows_not_sorted_in :
  let file := [csv_row (lit "FR") (lit "France")] in
  List.map iso (fetch_centroids (SV := insertion_sort_values) file)
  = [Some (lit "FR"); Some (lit "HK"); Some (lit "MO"); Some (lit "AX");
     Some (lit "EH")]
  /\ ~ sorted_by iso (fetch_centroids (SV := insertion_sort_values) file).
Proof.
  split; [reflexivity|].
  intros H. unfold sorted_by in H.
  apply StronglySorted_inv in H. destruct H as [H _].
  apply StronglySorted_inv in H. destruct H as [H _].
  apply StronglySorted_inv in H. destruct H as [_ H].
  apply Forall_inv in H. discriminate H.
Qed.

(* ================================================================== *)
(** * Step 2: the cleaned classification table *)

Module UnFacts.

Lemma fetch_un_data_map (table : list (RawUn str)) :
  fetch_un_data table = List.map classification_of table.
Proof.
  unfold fetch_un_data, read_html. cbv zeta. rewrite !map_map.
  apply map_ext. intros l. unfold select_un, ldc_rename, classification_of.
  simpl. destruct (PyStr.eqb _ _); reflexivity.
Qed.

End UnFacts.

(* ================================================================== *)
(** * Step 4: the Comtrade codes *)

Module ComtradeFacts.

Lemma overwrite_fst (item : Z * str) (r : Merged * option Z) :
  fst (overwrite item r) = fst r.
Proof. unfold overwrite. now destruct (eq_cell _ _). Qed.

(** A turn whose name is not found leaves the table as the overwriting
    would: no row has the name. *)
Lemma comtrade_turn_overwrite (merged : list (Merged * option Z))
    (printed : list str) (item : Z * str) :
  comtrade_turn (merged, printed) item
  = (List.map (overwrite item) merged,
     printed
       ++ (if existsb (fun r => eq_cell (country (fst r)) (snd item)) merged
           then [] else [not_found_message (snd item)])).
Proof.
  destruct item as [m49_code country_name]. unfold comtrade_turn. simpl snd.
  destruct (existsb _ merged) eqn:E; simpl.
  - rewrite app_nil_r. reflexivity.
  - f_equal. rewrite <- (map_id merged) at 1. apply map_ext_in.
    intros r Hr. unfold overwrite. simpl.
    destruct (eq_cell (country (fst r)) country_name) eqn:F; auto.
    assert (X : existsb (fun r => eq_cell (country (fst r)) country_name) merged
                = true) by (apply existsb_exists; eauto).
    congruence.
Qed.

Lemma existsb_country_map (f : Merged * option Z -> Merged * option Z)
    (name : str) (merged : list (Merged * option Z)) :
  (forall r, fst (f r) = fst r) ->
  existsb (fun r => eq_cell (country (fst r)) name) (List.map f merged)
  = existsb (fun r => eq_cell (country (fst r)) name) merged.
Proof.
  intros H. induction merged as [|r merged IH]; simpl; auto.
  now rewrite H, IH.
Qed.

Lemma existsb_country_init (name : str) (merged : list Merged) :
  existsb (fun r : Merged * option Z => eq_cell (country (fst r)) name)
    (List.map (fun r => (r, m49 r)) merged)
  = existsb (fun r => eq_cell (country r) name) merged.
Proof. induction merged as [|r merged IH]; simpl; auto. now rewrite IH. Qed.

Lemma fold_overwrite (items : list (Z * str)) (r : Merged) :
  forall c : option Z,
  fold_left (fun x item => overwrite item x) items (r, c)
  = (r,
     fold_left
       (fun (c : option Z) (item : Z * str) =>
          if eq_cell (country r) (snd item) then Some (fst item) else c)
       items c).
Proof.
  induction items as [|item items IH]; intros c; [reflexivity|].
  cbn [fold_left]. unfold overwrite at 2. cbn [fst snd].
  destruct (eq_cell (country r) (snd item)); apply IH.
Qed.

(** The five overwritings, one after the other, of a row that starts with
    its M49 code. *)
Lemma overwrite_all (r : Merged) :
  fold_left (fun x item => overwrite item x) alternate_comtrade_m49_codes
    (r, m49 r)
  = (r, remapped r).
Proof.
  rewrite fold_overwrite. f_equal.
  unfold remapped, alternate_comtrade_m49_codes. cbn [fold_left find fst snd].
  destruct (country r) as [c|]; [|reflexivity]. cbn [eq_cell].
  destruct (PyStr.eqb c (lit "France")) eqn:E1;
    [apply PyStrFacts.eqb_eq in E1; subst c; reflexivity|].
  destruct (PyStr.eqb c (lit "Norway")) eqn:E2;
    [apply PyStrFacts.eqb_eq in E2; subst c; reflexivity|].
  destruct (PyStr.eqb c (lit "India")) eqn:E3;
    [apply PyStrFacts.eqb_eq in E3; subst c; reflexivity|].
  destruct (PyStr.eqb c (lit "Switzerland")) eqn:E4;
    [apply PyStrFacts.eqb_eq in E4; subst c; reflexivity|].
  destruct (PyStr.eqb c (lit "United States")) eqn:E5; reflexivity.
Qed.

Lemma fold_turns (items : list (Z * str)) :
  forall (merged : list (Merged * option Z)) (printed : list str),
  fold_left comtrade_turn items (merged, printed)
  = (List.map (fold_left (fun x item => overwrite item x) items) merged,
     printed
       ++ List.map (fun e : Z * str => not_found_message (snd e))
            (filter
               (fun e : Z * str =>
                  negb (existsb (fun r => eq_cell (country (fst r)) (snd e))
                          merged))
               items)).
Proof.
  induction items as [|item items IH]; intros merged printed.
  - simpl. now rewrite map_id, app_nil_r.
  - cbn [fold_left]. rewrite comtrade_turn_overwrite, IH. f_equal.
    + rewrite map_map. reflexivity.
    + rewrite <- app_assoc. f_equal. cbn [filter].
      assert (F : filter
                    (fun e : Z * str =>
                       negb (existsb (fun r => eq_cell (country (fst r)) (snd e))
                               (List.map (overwrite item) merged)))
                    items
                  = filter
                      (fun e : Z * str =>
                         negb (existsb (fun r => eq_cell (country (fst r)) (snd e))
                                 merged))
                      items).
      { apply filter_ext. intros e. f_equal.
        apply existsb_country_map, overwrite_fst. }
      rewrite F.
      destruct (existsb _ merged); reflexivity.
Qed.

Lemma comtrade_remapped (merged : list Merged) :
  comtrade merged
  = (List.map (fun r => (r, remapped r)) merged, diagnostics merged).
Proof.
  unfold comtrade. rewrite fold_turns. f_equal.
  - rewrite map_map. apply map_ext. intros r. apply overwrite_all.
  - unfold diagnostics. rewrite app_nil_l. f_equal. apply filter_ext. intros e.
    now rewrite existsb_country_init.
Qed.

Lemma remapped_override (r : Merged) (code : Z) (name : str) :
  In (code, name) alternate_comtrade_m49_codes ->
  country r = Some name -> remapped r = Some code.
Proof.
  unfold remapped. intros H E. rewrite E.
  simpl in H.
  repeat (destruct H as [H|H]; [injection H as <- <-; reflexivity|]).
  destruct H.
Qed.

Lemma remapped_default (r : Merged) :
  (forall code name,
      In (code, name) alternate_comtrade_m49_codes -> country r <> Some name) ->
  remapped r = m49 r.
Proof.
  intros H. unfold remapped.
  destruct (find _ alternate_comtrade_m49_codes) as [[code name]|] eqn:F; auto.
  apply find_some in F. destruct F as [F1 F2]. simpl in F2.
  apply PandasFacts.eq_cell_true in F2. destruct (H code name F1 F2).
Qed.

End ComtradeFacts.

(** C3 (amended).  The cleaned classification table has, for every row of
    the UN table and in the same order, exactly the six fields region,
    subregion, m49, iso3, iso2 and is_least_developed.  The country name is
    renamed but not selected: the cleaned table does not depend on it, and
    the country of a merged row is absent or is the one of a centroid row. *)
Theorem classification_has_no_country (table : list (RawUn str)) :
  fetch_un_data table = List.map classification_of table
  /\ (forall name_of : RawUn str -> str,
        fetch_un_data (List.map (with_country name_of) table)
        = fetch_un_data table)
  /\ (forall (centroids : list Centroid) (m : Merged),
        In m (merge_tables (fetch_un_data table) centroids) ->
        country m = None
        \/ exists c, In c centroids /\ country m = c_country c).
Proof.
  split; [|split].
  - apply UnFacts.fetch_un_data_map.
  - intros name_of. rewrite !UnFacts.fetch_un_data_map, map_map.
    apply map_ext. reflexivity.
  - intros centroids m Hm. unfold merge_tables in Hm.
    apply in_map_iff in Hm. destruct Hm as [[l r] [<- Hp]].
    apply MergeFacts.in_merge_outer in Hp.
    destruct Hp as [[l' [r' [[= -> ->] [_ [Hr _]]]]]
                   |[[l' [[= -> ->] _]]|[r' [[= -> ->] [Hr _]]]]]; simpl; eauto.
Qed.

(** C3, counterexample.  The rows of France under two different country
    names are cleaned to the same row; and with a centroid file that has
    Germany only, the merged row of France, which has no centroid, has no
    country. *)
Lemma country_name_is_dropped :
  let table := [un_row (lit "France") 250 (lit "FR") (lit "FRA")] in
  let table' := [un_row (lit "Frankreich") 250 (lit "FR") (lit "FRA")] in
  let file := [csv_row (lit "DE") (lit "Germany")] in
  fetch_un_data table = fetch_un_data table'
  /\ List.map (fun m => (iso2 m, country m))
       (merge_tables (fetch_un_data table)
          (fetch_centroids (SV := insertion_sort_values) file))
     = [ (Some (lit "FR"), None);
         (None, Some (lit "Germany"));
         (None, Some (lit "Hong Kong"));
         (None, Some (lit "Macau"));
         (None, Some Aland_Islands);
         (None, Some (lit "Western Sahara")) ].
Proof. split; reflexivity. Qed.

(** C2.  The Comtrade column starts as the M49 column; the loop over the
    five overrides leaves every row with the override code when its country
    is an override name and with its M49 code otherwise, and changes nothing
    else.  An override whose name no row has prints one message and is
    skipped; the overrides after it are applied all the same. *)
Theorem comtrade_remapping (merged : list Merged) :
  comtrade merged
  = (List.map (fun r => (r, remapped r)) merged, diagnostics merged)
  /\ (forall r code name,
        In (code, name) alternate_comtrade_m49_codes ->
        country r = Some name -> remapped r = Some code)
  /\ (forall r,
        (forall code name,
            In (code, name) alternate_comtrade_m49_codes ->
            country r <> Some name) ->
        remapped r = m49 r)
  /\ alternate_comtrade_m49_codes
     = [ (251%Z, lit "France"); (579%Z, lit "Norway"); (699%Z, lit "India");
         (757%Z, lit "Switzerland"); (842%Z, lit "United States") ].
Proof.
  split; [|split; [|split]].
  - apply ComtradeFacts.comtrade_remapped.
  - intros r. apply ComtradeFacts.remapped_override.
  - apply ComtradeFacts.remapped_default.
  - reflexivity.
Qed.

(* ================================================================== *)
(** * Steps 3 to 6: merge, concat, coercion, sort, write *)

Module ReconcileFacts.

Lemma Permutation_filter {A} (f : A -> bool) (l l' : list A) :
  Permutation l l' -> Permutation (filter f l) (filter f l').
Proof.
  induction 1 as [|x l l' H IH|x y l|l l' l'' H1 IH1 H2 IH2]; simpl.
  - constructor.
  - destruct (f x); auto.
  - destruct (f x), (f y); auto. apply perm_swap.
  - etransitivity; eauto.
Qed.

Lemma map_injective {A B} (f : A -> B) (l l' : list A) :
  (forall a b, f a = f b -> a = b) -> List.map f l = List.map f l' -> l = l'.
Proof.
  intros Hf. revert l'. induction l as [|a l IH]; intros [|b l']; simpl;
    try discriminate; auto.
  intros [= H1 H2]. f_equal; auto.
Qed.

Lemma uncoerced_injective (a b : Row Z) : uncoerced a = uncoerced b -> a = b.
Proof.
  destruct a, b. unfold uncoerced. simpl. intros [= -> -> ->]. reflexivity.
Qed.

(** The rows of the merged table. *)
Lemma in_merge_tables (un_data : list Classification)
    (centroids : list Centroid) (m : Merged) :
  In m (merge_tables un_data centroids) <->
  (exists l c, In l un_data /\ In c centroids /\ un_iso2 l = iso c
               /\ m = fst (merged_row (Some l, Some c)))
  \/ (exists l, In l un_data
                /\ (forall c, In c centroids -> un_iso2 l <> iso c)
                /\ m = fst (merged_row (Some l, None)))
  \/ (exists c, In c centroids
                /\ (forall l, In l un_data -> un_iso2 l <> iso c)
                /\ m = fst (merged_row (None, Some c))).
Proof.
  unfold merge_tables. rewrite in_map_iff. split.
  - intros [p [<- Hp]]. apply MergeFacts.in_merge_outer in Hp.
    destruct Hp as [[l [c [-> [Hl [Hc E]]]]]
                   |[[l [-> [Hl Hn]]]|[c [-> [Hc Hn]]]]].
    + left. exists l, c. apply PandasFacts.key_eqb_eq in E. auto.
    + right; left. exists l. repeat split; auto.
      intros c Hc E. apply PandasFacts.key_eqb_eq in E.
      unfold on_iso2_iso in Hn. rewrite (Hn c Hc) in E. discriminate.
    + right; right. exists c. repeat split; auto.
      intros l Hl E. apply PandasFacts.key_eqb_eq in E.
      unfold on_iso2_iso in Hn. rewrite (Hn l Hl) in E. discriminate.
  - intros [[l [c [Hl [Hc [E ->]]]]]|[[l [Hl [Hn ->]]]|[c [Hc [Hn ->]]]]].
    + exists (Some l, Some c). split; auto.
      apply MergeFacts.in_merge_outer. left. exists l, c.
      repeat split; auto. now apply PandasFacts.key_eqb_eq.
    + exists (Some l, None). split; auto.
      apply MergeFacts.in_merge_outer. right; left. exists l.
      repeat split; auto. intros c Hc.
      destruct (on_iso2_iso l c) eqn:E; auto.
      apply PandasFacts.key_eqb_eq in E. destruct (Hn c Hc E).
    + exists (None, Some c). split; auto.
      apply MergeFacts.in_merge_outer. right; right. exists c.
      repeat split; auto. intros l Hl.
      destruct (on_iso2_iso l c) eqn:E; auto.
      apply PandasFacts.key_eqb_eq in E. destruct (Hn l Hl E).
Qed.

(** The coercion succeeds on the rows that all have a Comtrade code, and
    gives them back with the code as an integer; it raises on the others. *)
Lemma astype_int_m49_comtrade_cases (merged : list (Row (option Z))) :
  (exists rows, astype_int_m49_comtrade merged = Ok rows
                /\ List.map uncoerced rows = merged)
  \/ (astype_int_m49_comtrade merged = Raise IntCastingNaNError
      /\ exists r, In r merged /\ m49_comtrade r = None).
Proof.
  unfold astype_int_m49_comtrade.
  induction merged as [|r merged IH]; simpl.
  - left. exists []. auto.
  - destruct r as [c [z|] n]; simpl.
    + destruct (astype_int (List.map (fun r => m49_comtrade r) merged))
        as [ints|e] eqn:E.
      * destruct IH as [[rows [[= <-] H2]]|[[=] _]].
        left. eexists. split; [reflexivity|]. simpl. now rewrite H2.
      * destruct IH as [[rows [[=] _]]|[[= ->] [r [Hr Hn]]]].
        right. split; auto. exists r. auto.
    + right. split; auto. eexists. split; [left; reflexivity|reflexivity].
Qed.

Lemma astype_int_m49_comtrade_Ok (merged : list (Row (option Z)))
    (rows : list (Row Z)) :
  astype_int_m49_comtrade merged = Ok rows <-> List.map uncoerced rows = merged.
Proof.
  split.
  - intros H.
    destruct (astype_int_m49_comtrade_cases merged)
      as [[rows' [H1 H2]]|[H1 _]]; congruence.
  - intros H.
    destruct (astype_int_m49_comtrade_cases merged)
      as [[rows' [H1 H2]]|[H1 [r [Hr Hn]]]].
    + rewrite H1. f_equal. apply (map_injective uncoerced); [|congruence].
      apply uncoerced_injective.
    + subst merged. apply in_map_iff in Hr. destruct Hr as [x [<- _]].
      discriminate.
Qed.

Lemma astype_int_m49_comtrade_Raise (merged : list (Row (option Z))) (e : exn) :
  astype_int_m49_comtrade merged = Raise e <->
  e = IntCastingNaNError /\ exists r, In r merged /\ m49_comtrade r = None.
Proof.
  split.
  - intros H.
    destruct (astype_int_m49_comtrade_cases merged)
      as [[rows' [H1 H2]]|[H1 Hr]]; [congruence|].
    split; [congruence|exact Hr].
  - intros [-> [r [Hr Hn]]].
    destruct (astype_int_m49_comtrade_cases merged)
      as [[rows' [H1 H2]]|[H1 _]]; auto.
    subst merged. apply in_map_iff in Hr. destruct Hr as [x [<- _]].
    discriminate.
Qed.

Section WithSort.

Context {SV : SortValues}.

Lemma reconcile_unfold (un_data : list Classification)
    (centroids : list Centroid) :
  reconcile un_data centroids
  = (diagnostics (merge_tables un_data centroids),
     match astype_int_m49_comtrade (before_coercion un_data centroids) with
     | Ok rows => Ok (sort_values (fun r => country (cols r)) rows)
     | Raise e => Raise e
     end).
Proof.
  unfold reconcile. cbv zeta.
  rewrite ComtradeFacts.comtrade_remapped, map_map.
  change (List.map
            (fun x : Merged =>
               {| cols := fst (x, remapped x);
                  m49_comtrade := snd (x, remapped x);
                  non_country_region := false |})
            (merge_tables un_data centroids) ++ _non_country_df)
    with (before_coercion un_data centroids).
  destruct (astype_int_m49_comtrade (before_coercion un_data centroids));
    reflexivity.
Qed.

(** A run that reaches the final frame: the frame is a rearrangement of the
    source rows, each with its Comtrade code, and of the seven synthetic
    rows, sorted by country. *)
Lemma reconcile_Ok (un_data : list Classification)
    (centroids : list Centroid) (printed : list str) (rows : list (Row Z)) :
  reconcile un_data centroids = (printed, Ok rows) ->
  exists from_sources,
    Permutation (from_sources ++ non_country_rows) rows
    /\ List.map uncoerced from_sources
       = List.map source_row (merge_tables un_data centroids)
    /\ sorted_by (fun r => country (cols r)) rows.
Proof.
  rewrite reconcile_unfold. intros [= _ H].
  destruct (astype_int_m49_comtrade (before_coercion un_data centroids))
    as [rows'|e] eqn:E; [|discriminate].
  injection H as <-.
  apply astype_int_m49_comtrade_Ok in E. unfold before_coercion in E.
  apply map_eq_app in E. destruct E as [l1 [l2 [-> [E1 E2]]]].
  assert (l2 = non_country_rows) as ->.
  { apply (map_injective uncoerced); [apply uncoerced_injective|].
    rewrite E2. reflexivity. }
  exists l1. split; [|split]; auto.
  - apply sort_values_perm.
  - apply sort_values_sorted.
Qed.

(** The run raises exactly when a merged row is left without a Comtrade
    code. *)
Lemma reconcile_Raise (un_data : list Classification)
    (centroids : list Centroid) (e : exn) :
  snd (reconcile un_data centroids) = Raise e <->
  e = IntCastingNaNError
  /\ exists m, In m (merge_tables un_data centroids) /\ remapped m = None.
Proof.
  rewrite reconcile_unfold. cbn [snd].
  destruct (astype_int_m49_comtrade (before_coercion un_data centroids))
    as [rows'|e'] eqn:E.
  - split; [discriminate|]. intros [-> [m [Hm Hn]]].
    apply astype_int_m49_comtrade_Ok in E.
    assert (X : In (source_row m) (List.map uncoerced rows')).
    { rewrite E. unfold before_coercion. apply in_or_app. left.
      now apply in_map. }
    apply in_map_iff in X. destruct X as [x [X _]].
    apply (f_equal (fun r => m49_comtrade r)) in X. simpl in X. congruence.
  - apply astype_int_m49_comtrade_Raise in E. destruct E as [-> [r [Hr Hn]]].
    split.
    + intros [= <-]. split; auto.
      unfold before_coercion in Hr. apply in_app_or in Hr.
      destruct Hr as [Hr|Hr].
      * apply in_map_iff in Hr. destruct Hr as [m [<- Hm]]. eauto.
      * exfalso. simpl in Hr.
        repeat (destruct Hr as [<-|Hr]; [discriminate|]). destruct Hr.
    + intros [-> _]. reflexivity.
Qed.

End WithSort.

End ReconcileFacts.

(* ================================================================== *)
(** * The run as a whole *)

Module MainFacts.

Lemma to_csv_no_index (names : list string) (rows : list (list value)) :
  to_csv false names rows = {| header := names; records := rows |}.
Proof.
  unfold to_csv. f_equal. cbn [app].
  generalize 0. induction rows as [|r rows IH]; intros n; simpl; auto.
  now rewrite IH.
Qed.

Lemma select_output_columns (merged : list (Row Z)) :
  select output_columns merged = Ok (List.map row_values merged).
Proof. reflexivity. Qed.

Lemma remapped_None (m : Merged) :
  remapped m = None <-> m49 m = None /\ is_override_name (country m) = false.
Proof.
  unfold remapped, is_override_name.
  destruct (find _ alternate_comtrade_m49_codes) as [[code name]|] eqn:F.
  - apply find_some in F. destruct F as [F1 F2].
    assert (X : existsb (fun e : Z * str => eq_cell (country m) (snd e))
                  alternate_comtrade_m49_codes = true)
      by (apply existsb_exists; eauto).
    rewrite X. split; [discriminate|]. intros [_ H]. discriminate.
  - split.
    + intros H. split; auto.
      destruct (existsb _ alternate_comtrade_m49_codes) eqn:X; auto.
      apply existsb_exists in X. destruct X as [e [He X]].
      pose proof (find_none _ _ F e He) as Y. simpl in Y. congruence.
    + tauto.
Qed.

Section WithSort.

Context {SV : SortValues}.

Lemma main_unfold (file : list (RawCentroid str)) (table : list (RawUn str)) :
  main file table
  = match reconcile (fetch_un_data table) (fetch_centroids file) with
    | (printed, Raise e) => (printed, Raise e)
    | (printed, Ok rows) =>
        (printed
           ++ [ lit "Country data has been fetched and saved to 'countries.csv'.";
                lit "You can now use this data in your application." ],
         Ok {| header := output_columns;
               records := List.map row_values rows |})
    end.
Proof.
  unfold main. cbv zeta.
  destruct (reconcile (fetch_un_data table) (fetch_centroids file))
    as [printed [rows|e]]; [|reflexivity].
  rewrite select_output_columns, to_csv_no_index. reflexivity.
Qed.

(** The run stops at the coercion exactly when a centroid row that no
    classification row matches has a country that is not an override
    name. *)
Lemma reconcile_Raise_iff (un_data : list Classification)
    (centroids : list Centroid) :
  snd (reconcile un_data centroids) = Raise IntCastingNaNError <->
  exists c, In c centroids
            /\ (forall l, In l un_data -> un_iso2 l <> iso c)
            /\ is_override_name (c_country c) = false.
Proof.
  rewrite ReconcileFacts.reconcile_Raise. split.
  - intros [_ [m [Hm Hn]]]. apply remapped_None in Hn. destruct Hn as [H1 H2].
    apply ReconcileFacts.in_merge_tables in Hm.
    destruct Hm as [[l [c [_ [_ [_ ->]]]]]|[[l [_ [_ ->]]]|[c [Hc [Hu ->]]]]];
      try discriminate.
    exists c. auto.
  - intros [c [Hc [Hu Ho]]]. split; auto.
    exists (fst (merged_row (None, Some c))). split.
    + apply ReconcileFacts.in_merge_tables. right; right. eauto.
    + apply remapped_None. auto.
Qed.

Lemma reconcile_result (un_data : list Classification)
    (centroids : list Centroid) :
  snd (reconcile un_data centroids) = Raise IntCastingNaNError
  \/ exists rows, snd (reconcile un_data centroids) = Ok rows.
Proof.
  rewrite ReconcileFacts.reconcile_unfold. cbn [snd].
  destruct (ReconcileFacts.astype_int_m49_comtrade_cases
              (before_coercion un_data centroids))
    as [[rows [-> _]]|[-> _]]; eauto.
Qed.

End WithSort.

End MainFacts.

Section Run.

Context {SV : SortValues}.

(** C9 (amended).  The run stops at the integer coercion, before anything
    is written, if and only if some cleaned centroid row whose ISO code
    matches no classification row has a country that is not one of the five
    override names: such a row has no M49 code and keeps no Comtrade code.
    A centroid-only row whose country is an override name receives the
    override code and does not stop the run; the file is written exactly
    when every centroid-only row is of that kind. *)
Theorem coercion_fails_iff_unmatched_without_override
    (file : list (RawCentroid str)) (table : list (RawUn str)) :
  let centroids := fetch_centroids file in
  let un_data := fetch_un_data table in
  (snd (main file table) = Raise IntCastingNaNError <->
   exists c, In c centroids
             /\ (forall l, In l un_data -> un_iso2 l <> iso c)
             /\ is_override_name (c_country c) = false)
  /\ ((exists csv, snd (main file table) = Ok csv) <->
      forall c, In c centroids ->
                (forall l, In l un_data -> un_iso2 l <> iso c) ->
                is_override_name (c_country c) = true).
Proof.
  intros centroids un_data.
  pose proof (MainFacts.reconcile_Raise_iff un_data centroids) as R.
  pose proof (MainFacts.reconcile_result un_data centroids) as T.
  rewrite MainFacts.main_unfold. fold centroids un_data.
  destruct (reconcile un_data centroids) as [printed [rows|e]];
    cbn [snd] in *.
  - split.
    + split; [discriminate|]. intros H. apply R in H. discriminate.
    + split; [|eauto]. intros _ c Hc Hu.
      destruct (is_override_name (c_country c)) eqn:E; auto.
      assert (X : Ok rows = Raise IntCastingNaNError) by (apply R; eauto).
      discriminate.
  - destruct T as [T|[rows T]]; [|discriminate]. injection T as ->.
    split.
    + split; [intros _; now apply R|reflexivity].
    + split; [intros [csv H]; discriminate|]. intros H.
      destruct R as [R _]. destruct (R eq_refl) as [c [Hc [Hu Ho]]].
      rewrite (H c Hc Hu) in Ho. discriminate.
Qed.

End Run.

(** C9, counterexample.  The centroid file has France alone and the UN
    table has the four manual territories and not France.  The centroid row
    FR matches no classification row, yet the run does not stop: France is
    an override name, the row gets the Comtrade code 251, and the file is
    written with it (its M49 code is NaN). *)
Lemma unmatched_override_row_is_written :
  let file := [csv_row (lit "FR") (lit "France")] in
  let table := un_manual_rows in
  (exists c, In c (fetch_centroids (SV := insertion_sort_values) file)
             /\ iso c = Some (lit "FR")
             /\ forall l, In l (fetch_un_data table) -> un_iso2 l <> iso c)
  /\ exists csv,
       snd (main (SV := insertion_sort_values) file table) = Ok csv
       /\ In [ VNaN; VNaN; VStr (lit "France"); VNaN; VNaN; VNaN; VInt 251;
               VFloat 46.5%Q; VFloat 2.5%Q; VNaN; VBool false ]
            (records csv).
Proof.
  split.
  - eexists. split; [left; reflexivity|]. split; [reflexivity|].
    intros l Hl. simpl in Hl.
    repeat (destruct Hl as [<-|Hl]; [discriminate|]). destruct Hl.
  - eexists. split; [vm_compute; reflexivity|].
    simpl. right. left. reflexivity.
Qed.

(* ================================================================== *)
(** * Properties of the merge and of the final frame *)

Module FrameFacts.

Lemma unique_key_matches {A} (key : A -> option str) (k : option str)
    (l : list A) :
  NoDup (List.map key l) ->
  List.length (filter (fun a => key_eqb k (key a)) l) <= 1.
Proof.
  induction l as [|a l IH]; simpl; intros H; [lia|].
  apply NoDup_cons_iff in H. destruct H as [Ha H].
  destruct (key_eqb k (key a)) eqn:E; [|auto].
  apply PandasFacts.key_eqb_eq in E. subst k.
  assert (X : filter (fun b => key_eqb (key a) (key b)) l = []).
  { apply MergeFacts.filter_nil_iff. intros b Hb.
    destruct (key_eqb (key a) (key b)) eqn:F; auto.
    apply PandasFacts.key_eqb_eq in F. destruct Ha. rewrite F.
    now apply in_map. }
  rewrite X. simpl. lia.
Qed.

Lemma unique_key_partners {A} (key : A -> option str) (k : option str)
    (l : list A) :
  NoDup (List.map key l) ->
  List.length (filter (fun a => key_eqb (key a) k) l) <= 1.
Proof.
  intros H. rewrite (filter_ext _ (fun a => key_eqb k (key a))).
  - now apply unique_key_matches.
  - intros a. destruct (key_eqb (key a) k) eqn:E.
    + apply PandasFacts.key_eqb_eq in E. symmetry.
      now apply PandasFacts.key_eqb_eq.
    + destruct (key_eqb k (key a)) eqn:F; auto.
      apply PandasFacts.key_eqb_eq in F. symmetry in F.
      apply PandasFacts.key_eqb_eq in F. congruence.
Qed.

Lemma length_merge_tables (un_data : list Classification)
    (centroids : list Centroid) :
  List.length (merge_tables un_data centroids)
  = List.length (merge_outer on_iso2_iso un_data centroids).
Proof. unfold merge_tables. apply length_map. Qed.

Lemma cols_of_sources (from_sources : list (Row Z)) (merged : list Merged) :
  List.map uncoerced from_sources = List.map source_row merged ->
  List.map (fun r => cols r) from_sources = merged
  /\ Forall (fun r => non_country_region r = false) from_sources.
Proof.
  revert merged. induction from_sources as [|r l IH]; intros [|m merged];
    simpl; try discriminate; auto.
  intros [= H1 H2 H3 H4]. destruct (IH merged H4) as [E F].
  split; [congruence|constructor; auto].
Qed.

End FrameFacts.

Section Frame.

Context {SV : SortValues}.

(** C1 (amended).  Every cleaned classification row and every cleaned
    centroid row appears in the merged table: joined to a row of the other
    table with the same ISO code, or alone with the other side's columns
    absent.  The merged table has at least max(classifications, centroids)
    rows; it has at most their sum when no ISO code occurs twice in one of
    the two tables (a code that occurs several times on both sides
    multiplies the rows).  When the run reaches the final frame, that frame
    is a rearrangement of the merged rows and of the seven synthetic rows:
    no row is dropped after the merge. *)
Theorem outer_join_keeps_every_row (un_data : list Classification)
    (centroids : list Centroid) :
  let merged := merge_tables un_data centroids in
  (forall l, In l un_data ->
     exists m, In m merged /\ carries_classification l m
               /\ (no_centroid m
                   \/ exists c, In c centroids /\ iso c = un_iso2 l
                                /\ carries_centroid c m))
  /\ (forall c, In c centroids ->
        exists m, In m merged /\ carries_centroid c m
                  /\ (no_classification m
                      \/ exists l, In l un_data /\ un_iso2 l = iso c
                                   /\ carries_classification l m))
  /\ Nat.max (List.length un_data) (List.length centroids)
     <= List.length merged
  /\ (NoDup (List.map un_iso2 un_data) \/ NoDup (List.map iso centroids) ->
      List.length merged <= List.length un_data + List.length centroids)
  /\ (forall printed rows,
        reconcile un_data centroids = (printed, Ok rows) ->
        Permutation (List.map (fun r => cols r) rows)
          (merged ++ List.map (fun r => cols r) non_country_rows)
        /\ List.length rows = List.length merged + 7).
Proof.
  intros merged. split; [|split; [|split; [|split]]].
  - intros l Hl.
    destruct (filter (on_iso2_iso l) centroids) as [|c cs] eqn:E.
    + exists (fst (merged_row (Some l, None))). split; [|split].
      * apply ReconcileFacts.in_merge_tables. right; left. exists l.
        repeat split; auto. intros c Hc F.
        apply PandasFacts.key_eqb_eq in F.
        pose proof (proj1 (MergeFacts.filter_nil_iff _ _) E c Hc) as G.
        unfold on_iso2_iso in G. congruence.
      * repeat split.
      * left. repeat split.
    + assert (Hc : In c (filter (on_iso2_iso l) centroids))
        by (rewrite E; now left).
      apply filter_In in Hc. destruct Hc as [Hc F].
      apply PandasFacts.key_eqb_eq in F.
      exists (fst (merged_row (Some l, Some c))). split; [|split].
      * apply ReconcileFacts.in_merge_tables. left. exists l, c. auto.
      * repeat split.
      * right. exists c. repeat split; auto.
  - intros c Hc.
    destruct (filter (fun l => on_iso2_iso l c) un_data) as [|l ls] eqn:E.
    + exists (fst (merged_row (None, Some c))). split; [|split].
      * apply ReconcileFacts.in_merge_tables. right; right. exists c.
        repeat split; auto. intros l Hl F.
        apply PandasFacts.key_eqb_eq in F.
        pose proof (proj1 (MergeFacts.filter_nil_iff _ _) E l Hl) as G.
        unfold on_iso2_iso in G. simpl in G. congruence.
      * repeat split.
      * left. repeat split.
    + assert (Hl : In l (filter (fun l => on_iso2_iso l c) un_data))
        by (rewrite E; now left).
      apply filter_In in Hl. destruct Hl as [Hl F].
      apply PandasFacts.key_eqb_eq in F.
      exists (fst (merged_row (Some l, Some c))). split; [|split].
      * apply ReconcileFacts.in_merge_tables. left. exists l, c. auto.
      * repeat split.
      * right. exists l. repeat split; auto.
  - unfold merged. rewrite FrameFacts.length_merge_tables.
    pose proof (MergeFacts.merge_outer_ge_left on_iso2_iso un_data centroids).
    pose proof (MergeFacts.merge_outer_ge_right on_iso2_iso un_data centroids).
    lia.
  - intros H. unfold merged. rewrite FrameFacts.length_merge_tables.
    apply MergeFacts.merge_outer_le_sum. destruct H as [H|H].
    + right. intros c _. unfold partners_of, on_iso2_iso.
      now apply FrameFacts.unique_key_partners.
    + left. intros l _. unfold matches_of, on_iso2_iso.
      now apply FrameFacts.unique_key_matches.
  - intros printed rows H.
    apply ReconcileFacts.reconcile_Ok in H.
    destruct H as [from_sources [P [E _]]].
    apply FrameFacts.cols_of_sources in E. destruct E as [E _].
    split.
    + rewrite <- P, map_app, E. apply Permutation_refl.
    + rewrite <- (Permutation_length P), length_app.
      rewrite <- (length_map (fun r : Row Z => cols r) from_sources), E.
      reflexivity.
Qed.

(** C4.  When the run reaches the final frame, the rows of that frame with
    is_non_country_region = true are exactly the seven synthetic rows, of
    M49 codes 899, 568, 490, 577, 837, 838 and 839; every row that comes
    from the merge of the two sources has it false; and each synthetic row
    has m49_comtrade = m49, is_least_developed = false and no ISO code. *)
Theorem seven_non_country_rows (un_data : list Classification)
    (centroids : list Centroid) (printed : list str) (rows : list (Row Z)) :
  reconcile un_data centroids = (printed, Ok rows) ->
  Permutation (filter (fun r => non_country_region r) rows) non_country_rows
  /\ List.map (fun r => m49 (cols r)) non_country_rows
     = [ Some 899%Z; Some 568%Z; Some 490%Z; Some 577%Z; Some 837%Z;
         Some 838%Z; Some 839%Z ]
  /\ (exists from_sources,
        Permutation rows (from_sources ++ non_country_rows)
        /\ List.map (fun r => cols r) from_sources
           = merge_tables un_data centroids
        /\ Forall (fun r => non_country_region r = false) from_sources)
  /\ Forall
       (fun r =>
          non_country_region r = true
          /\ m49 (cols r) = Some (m49_comtrade r)
          /\ ldc (cols r) = Some false
          /\ iso2 (cols r) = None /\ iso3 (cols r) = None)
       non_country_rows.
Proof.
  intros H. apply ReconcileFacts.reconcile_Ok in H.
  destruct H as [from_sources [P [E _]]].
  apply FrameFacts.cols_of_sources in E. destruct E as [E F].
  split; [|split; [|split]].
  - rewrite <- (ReconcileFacts.Permutation_filter _ P), filter_app.
    assert (X : filter (fun r : Row Z => non_country_region r) from_sources = []).
    { clear - F. induction F as [|r l Hr _ IH]; simpl; auto.
      now rewrite Hr. }
    rewrite X. apply Permutation_refl.
  - reflexivity.
  - exists from_sources. repeat split; auto. now symmetry.
  - repeat constructor.
Qed.

End Frame.

(** C1, counterexample.  Three classification rows and two centroid file
    rows all carry the ISO code XX.  The cleaned tables have 3 and 6 rows
    (the four manual rows are appended), and the merged table has 10:
    the six pairs of XX rows and the four manual rows alone.  That is more
    than 3 + 6. *)
Lemma repeated_code_multiplies_rows :
  let table := [ un_row (lit "X1") 901 (lit "XX") (lit "XX1");
                 un_row (lit "X2") 902 (lit "XX") (lit "XX2");
                 un_row (lit "X3") 903 (lit "XX") (lit "XX3") ] in
  let file := [ csv_row (lit "XX") (lit "Xanadu");
                csv_row (lit "XX") (lit "Xanadu Islands") ] in
  let un_data := fetch_un_data table in
  let centroids := fetch_centroids (SV := insertion_sort_values) file in
  List.length un_data = 3 /\ List.length centroids = 6
  /\ List.length (merge_tables un_data centroids) = 10
  /\ ~ (List.length (merge_tables un_data centroids)
        <= List.length un_data + List.length centroids).
Proof.
  repeat split. vm_compute. intros H.
  repeat (apply le_S_n in H). inversion H.
Qed.

(** The theorem C1 at a run that succeeds: the UN table has the four manual
    territories and France, the centroid file has France. *)
Lemma outer_join_keeps_every_row_example :
  let un_data :=
    fetch_un_data (un_row (lit "France") 250 (lit "FR") (lit "FRA")
                     :: un_manual_rows) in
  let centroids :=
    fetch_centroids (SV := insertion_sort_values)
      [csv_row (lit "FR") (lit "France")] in
  List.length (merge_tables un_data centroids)
  <= List.length un_data + List.length centroids
  /\ exists rows,
       snd (reconcile (SV := insertion_sort_values) un_data centroids) = Ok rows
       /\ List.length rows = List.length (merge_tables un_data centroids) + 7.
Proof.
  intros un_data centroids.
  destruct (outer_join_keeps_every_row (SV := insertion_sort_values)
              un_data centroids) as [_ [_ [_ [H4 H5]]]].
  split.
  - apply H4. right. repeat constructor; simpl; intuition discriminate.
  - destruct (reconcile (SV := insertion_sort_values) un_data centroids)
      as [printed [rows|e]] eqn:E.
    + exists rows. split; [reflexivity|]. now apply (H5 printed rows).
    + vm_compute in E. discriminate E.
Defined.

(** The theorem C4 at the same run. *)
Lemma seven_non_country_rows_example :
  let un_data :=
    fetch_un_data (un_row (lit "France") 250 (lit "FR") (lit "FRA")
                     :: un_manual_rows) in
  let centroids :=
    fetch_centroids (SV := insertion_sort_values)
      [csv_row (lit "FR") (lit "France")] in
  exists rows,
    snd (reconcile (SV := insertion_sort_values) un_data centroids) = Ok rows
    /\ Permutation (filter (fun r => non_country_region r) rows)
         non_country_rows.
Proof.
  intros un_data centroids.
  destruct (reconcile (SV := insertion_sort_values) un_data centroids)
    as [printed [rows|e]] eqn:E.
  - exists rows. split; [reflexivity|].
    apply (seven_non_country_rows (SV := insertion_sort_values)
             un_data centroids E).
  - vm_compute in E. discriminate E.
Defined.

(* ================================================================== *)
(** * Properties of the written file and of the reading *)

Module OutputFacts.

Lemma record_country_row_values (r : Row Z) :
  record_country (row_values r) = country (cols r).
Proof. unfold record_country. simpl. now destruct (country (cols r)). Qed.

Lemma read_csv_kept (file : list (RawCentroid str)) :
  read_csv false file = List.map kept file.
Proof. reflexivity. Qed.

Section WithSort.

Context {SV : SortValues}.

Lemma NA_row_is_cleaned (file : list (RawCentroid str)) (l : RawCentroid str) :
  In l file -> ISO l = lit "NA" ->
  In {| c_longitude := raw_longitude l; c_latitude := raw_latitude l;
        c_country := Some (PyStr.strip (COUNTRY l));
        iso := Some (lit "NA") |}
     (fetch_centroids file).
Proof.
  intros Hl E.
  rewrite CentroidFacts.fetch_centroids_app. apply in_or_app. left.
  eapply Permutation_in;
    [symmetry; apply CentroidFacts.sorted_part_perm|].
  apply in_map_iff. exists (kept l). split.
  - unfold cleaned, kept. simpl. rewrite E. reflexivity.
  - rewrite CentroidFacts.not_excluded_filter. apply filter_In. split.
    + rewrite read_csv_kept. now apply in_map.
    + simpl. rewrite E. reflexivity.
Qed.

Lemma source_row_in_frame (un_data : list Classification)
    (centroids : list Centroid) (printed : list str) (rows : list (Row Z))
    (m : Merged) :
  reconcile un_data centroids = (printed, Ok rows) ->
  In m (merge_tables un_data centroids) ->
  exists r, In r rows /\ cols r = m.
Proof.
  intros H Hm. apply ReconcileFacts.reconcile_Ok in H.
  destruct H as [from_sources [P [E _]]].
  apply FrameFacts.cols_of_sources in E. destruct E as [E _].
  rewrite <- E in Hm. apply in_map_iff in Hm. destruct Hm as [r [<- Hr]].
  exists r. split; auto.
  apply (Permutation_in _ P). apply in_or_app. now left.
Qed.

End WithSort.

End OutputFacts.

Section Output.

Context {SV : SortValues}.

(** C6.  The file that a run writes has the header region, subregion,
    country, iso2, iso3, m49, m49_comtrade, latitude, longitude, ldc,
    non_country_region, in that order and with no index column before it;
    every record has these eleven values and nothing else; and the records
    are in ascending order of country (code-point order, the records without
    a country last). *)
Theorem output_sorted_by_country_with_eleven_columns
    (file : list (RawCentroid str)) (table : list (RawUn str))
    (printed : list str) (csv : Csv) :
  main file table = (printed, Ok csv) ->
  header csv
  = [ "region"; "subregion"; "country"; "iso2"; "iso3"; "m49";
      "m49_comtrade"; "latitude"; "longitude"; "ldc";
      "non_country_region" ]%string
  /\ sorted_by record_country (records csv)
  /\ Forall (fun rec => List.length rec = 11) (records csv)
  /\ exists rows,
       snd (reconcile (fetch_un_data table) (fetch_centroids file)) = Ok rows
       /\ sorted_by (fun r => country (cols r)) rows
       /\ records csv = List.map row_values rows.
Proof.
  rewrite MainFacts.main_unfold.
  destruct (reconcile (fetch_un_data table) (fetch_centroids file))
    as [printed' [rows|e]] eqn:E; [|discriminate].
  intros [= _ <-]. cbn [header records snd].
  pose proof (ReconcileFacts.reconcile_Ok _ _ E) as [_ [_ [_ S]]].
  split; [reflexivity|split; [|split]].
  - apply CentroidFacts.sorted_by_map.
    unfold sorted_by in *. clear E.
    induction S as [|a l Hs IH Ha]; constructor; auto.
    eapply Forall_impl; [|exact Ha]. intros b Hb. cbv beta.
    now rewrite !OutputFacts.record_country_row_values.
  - apply Forall_map. apply Forall_forall. reflexivity.
  - exists rows. auto.
Qed.

(** C10.  Both tables are read with the detection of missing-value markers
    off: every text cell is kept as the string it is, the marker-like text
    "NA" included (with the detection on it would be read as NaN), and an
    empty cell is the empty string.  A row of the centroid file with the ISO
    code "NA" is in the cleaned centroid table with that code; the ISO code
    of a classification row is the string read, the empty one included, and
    an empty LDC cell gives is_least_developed = false; and when the UN
    table has a row of ISO code "NA" and the run writes its file, the file
    has a record with iso2 "NA" and the country of the centroid row. *)
Theorem marker_like_text_is_kept :
  (forall text, read_cell false text = Some text)
  /\ read_cell true (lit "NA") = None
  /\ (forall file, read_csv false file = List.map kept file)
  /\ (forall file l,
        In l file -> ISO l = lit "NA" ->
        In {| c_longitude := raw_longitude l; c_latitude := raw_latitude l;
              c_country := Some (PyStr.strip (COUNTRY l));
              iso := Some (lit "NA") |}
           (fetch_centroids file))
  /\ (forall table u,
        In u table ->
        exists l, In l (fetch_un_data table)
                  /\ un_iso2 l = Some (ISO_alpha2_Code u)
                  /\ un_iso3 l = Some (ISO_alpha3_Code u)
                  /\ (Least_Developed_Countries_LDC u = [] -> un_ldc l = false))
  /\ (forall file table printed csv l u,
        main file table = (printed, Ok csv) ->
        In l file -> ISO l = lit "NA" ->
        In u table -> ISO_alpha2_Code u = lit "NA" ->
        exists rec, In rec (records csv)
                    /\ nth 3 rec VNaN = VStr (lit "NA")
                    /\ nth 2 rec VNaN = VStr (PyStr.strip (COUNTRY l))).
Proof.
  split; [|split; [|split; [|split; [|split]]]].
  - reflexivity.
  - reflexivity.
  - reflexivity.
  - apply OutputFacts.NA_row_is_cleaned.
  - intros table u Hu. exists (classification_of u). split; [|split; [|split]].
    + rewrite UnFacts.fetch_un_data_map. now apply in_map.
    + reflexivity.
    + reflexivity.
    + simpl. intros ->. reflexivity.
  - intros file table printed csv l u H Hl El Hu Eu.
    rewrite MainFacts.main_unfold in H.
    destruct (reconcile (fetch_un_data table) (fetch_centroids file))
      as [printed' [rows|e]] eqn:E; [|discriminate].
    injection H as _ <-. cbn [records].
    pose proof (OutputFacts.NA_row_is_cleaned file l Hl El) as Hc.
    assert (Hm : In (fst (merged_row
                            (Some (classification_of u),
                             Some {| c_longitude := raw_longitude l;
                                     c_latitude := raw_latitude l;
                                     c_country := Some (PyStr.strip (COUNTRY l));
                                     iso := Some (lit "NA") |})))
                   (merge_tables (fetch_un_data table) (fetch_centroids file))).
    { apply ReconcileFacts.in_merge_tables. left.
      eexists. eexists. split; [|split; [exact Hc|split; [|reflexivity]]].
      - rewrite UnFacts.fetch_un_data_map. now apply in_map.
      - simpl. now rewrite Eu. }
    destruct (OutputFacts.source_row_in_frame _ _ _ E Hm) as [r [Hr Er]].
    exists (row_values r). split; [now apply in_map|].
    unfold row_values. simpl. rewrite Er. simpl. rewrite Eu. auto.
Qed.

End Output.

(** The theorem C6 at a run that succeeds: the UN table has France and the
    four manual territories, the centroid file has France. *)
Lemma output_sorted_by_country_example :
  let file := [csv_row (lit "FR") (lit "France")] in
  let table :=
    un_row (lit "France") 250 (lit "FR") (lit "FRA") :: un_manual_rows in
  exists csv,
    snd (main (SV := insertion_sort_values) file table) = Ok csv
    /\ sorted_by record_country (records csv)
    /\ List.map record_country (records csv)
       = [ Some (lit "Bunkers"); Some (lit "France"); Some (lit "Free Zones");
           Some (lit "Hong Kong"); Some (lit "Macau"); Some (lit "NES");
           Some (lit "NES"); Some (lit "NES"); Some (lit "NES");
           Some (lit "Special Categories"); Some (lit "Western Sahara");
           Some Aland_Islands ].
Proof.
  intros file table.
  destruct (main (SV := insertion_sort_values) file table)
    as [printed [csv|e]] eqn:E.
  - exists csv. split; [reflexivity|]. split.
    + apply (output_sorted_by_country_with_eleven_columns
               (SV := insertion_sort_values) file table E).
    + vm_compute in E. injection E as _ <-. reflexivity.
  - vm_compute in E. discriminate E.
Defined.

(** The theorem C10 at Namibia: the centroid file and the UN table both
    have the ISO code "NA", and the file written has it. *)
Lemma marker_like_text_is_kept_example :
  let file := [csv_row (lit "NA") (lit "Namibia")] in
  let table :=
    un_row (lit "Namibia") 516 (lit "NA") (lit "NAM") :: un_manual_rows in
  exists csv,
    snd (main (SV := insertion_sort_values) file table) = Ok csv
    /\ exists rec, In rec (records csv)
                   /\ nth 3 rec VNaN = VStr (lit "NA")
                   /\ nth 2 rec VNaN = VStr (lit "Namibia").
Proof.
  intros file table.
  destruct (main (SV := insertion_sort_values) file table)
    as [printed [csv|e]] eqn:E.
  - exists csv. split; [reflexivity|].
    destruct (marker_like_text_is_kept (SV := insertion_sort_values))
      as [_ [_ [_ [_ [_ H]]]]].
    apply (H file table printed csv
             (csv_row (lit "NA") (lit "Namibia"))
             (un_row (lit "Namibia") 516 (lit "NA") (lit "NAM")) E);
      try reflexivity; left; reflexivity.
  - vm_compute in E. discriminate E.
Defined.

(* ================================================================== *)
(** * The theorems at concrete tables *)

(** The theorem C2 at a table of two rows, France and Hong Kong: France
    gets the code 251, Hong Kong keeps its M49 code, and the four overrides
    whose country is missing print their message. *)
Lemma comtrade_remapping_example :
  let row (name : str) (code : Z) : Merged :=
    {| region := Some (lit "R"); subregion := Some (lit "S");
       m49 := Some code; iso3 := None; iso2 := None; ldc := Some false;
       longitude := Some 2.5%Q; latitude := Some 46.5%Q;
       country := Some name |} in
  let fr := row (lit "France") 250%Z in
  let hk := row (lit "Hong Kong") 344%Z in
  remapped fr = Some 251%Z
  /\ remapped hk = m49 hk
  /\ comtrade [fr; hk]
     = ([(fr, Some 251%Z); (hk, Some 344%Z)],
        [ not_found_message (lit "Norway"); not_found_message (lit "India");
          not_found_message (lit "Switzerland");
          not_found_message (lit "United States") ]).
Proof.
  intros row fr hk.
  destruct (comtrade_remapping [fr; hk]) as [H1 [H2 [H3 _]]].
  split; [|split].
  - apply (H2 fr 251%Z (lit "France")); [left|]; reflexivity.
  - apply H3. intros code name H. simpl in H.
    repeat (destruct H as [H|H]; [injection H as <- <-; discriminate|]).
    destruct H.
  - rewrite H1. reflexivity.
Defined.

(** The theorem C3 at the UN row of France. *)
Lemma classification_has_no_country_example :
  let table := [un_row (lit "France") 250 (lit "FR") (lit "FRA")] in
  fetch_un_data table
  = [ {| un_region := Some (lit "Europe");
         un_subregion := Some (lit "Western Europe");
         un_m49 := 250%Z;
         un_iso3 := Some (lit "FRA");
         un_iso2 := Some (lit "FR");
         un_ldc := false |} ]
  /\ fetch_un_data (List.map (with_country (fun _ => lit "Frankreich")) table)
     = fetch_un_data table.
Proof.
  intros table.
  destruct (classification_has_no_country table) as [H1 [H2 _]].
  split.
  - rewrite H1. reflexivity.
  - apply H2.
Defined.

(** The theorem C5 at a file of three rows: the excluded pair
    ("ES", "Canarias") is removed; ("ES", "Spain"), which has the ISO code
    of an excluded pair only, survives, and so does ("FR", "France"). *)
Lemma exclusion_compares_untrimmed_fields_example :
  let file := [ csv_row (lit "ES") (lit "Canarias");
                csv_row (lit "ES") (lit "Spain");
                csv_row (lit "FR") (lit "France") ] in
  not_excluded (read_csv false file)
  = [ kept (csv_row (lit "ES") (lit "Spain"));
      kept (csv_row (lit "FR") (lit "France")) ]
  /\ In (kept (csv_row (lit "ES") (lit "Spain")))
       (not_excluded (read_csv false file)).
Proof.
  intros file.
  destruct (exclusion_compares_untrimmed_fields
              (SV := insertion_sort_values) file) as [H1 [H2 _]].
  split.
  - rewrite H1. reflexivity.
  - apply H2.
    + right. left. reflexivity.
    + intros e He. simpl in He.
      repeat (destruct He as [<-|He]; [right; discriminate|]).
      destruct He.
Defined.

(** The theorem C7 at a file of two rows with different ISO codes, neither
    of them a code of a manual row. *)
Lemma iso_unique_iff_survivors_unique_example :
  let file := [ csv_row (lit "FR") (lit "France");
                csv_row (lit "DE") (lit "Germany") ] in
  NoDup (List.map iso (fetch_centroids (SV := insertion_sort_values) file)).
Proof.
  intros file.
  apply (iso_unique_iff_survivors_unique (SV := insertion_sort_values) file).
  split.
  - repeat constructor; simpl; intuition discriminate.
  - intros r Hr. simpl in Hr. destruct Hr as [<-|[<-|[]]]; simpl;
      intuition discriminate.
Defined.

(** The theorem C9 at a centroid file and a UN table that both have France
    only: the manual row of Hong Kong matches no classification row and
    Hong Kong is not an override name, so the run stops at the coercion. *)
Lemma coercion_fails_example :
  let file := [csv_row (lit "FR") (lit "France")] in
  let table := [un_row (lit "France") 250 (lit "FR") (lit "FRA")] in
  snd (main (SV := insertion_sort_values) file table)
  = Raise IntCastingNaNError.
Proof.
  intros file table.
  apply (coercion_fails_iff_unmatched_without_override
           (SV := insertion_sort_values) file table).
  exists {| c_country := Some (lit "Hong Kong"); iso := Some (lit "HK");
            c_latitude := 22.3964%Q; c_longitude := 114.1095%Q |}.
  split; [right; left; reflexivity|]. split; [|reflexivity].
  intros l Hl. simpl in Hl. destruct Hl as [<-|[]]. discriminate.
Defined.

(* ================================================================== *)
(** * Further properties: trimming and the size of the centroid table *)

Module StripFacts.

Lemma lstrip_starts_clean (s : str) : starts_clean (PyStr.lstrip s) = true.
Proof.
  induction s as [|c s IH]; simpl; auto.
  destruct (PyStr.isspace c) eqn:E; auto. simpl. now rewrite E.
Qed.

Lemma lstrip_clean (s : str) : starts_clean s = true -> PyStr.lstrip s = s.
Proof.
  destruct s as [|c s]; simpl; auto.
  destruct (PyStr.isspace c); [discriminate|reflexivity].
Qed.

(** Stripping on the left stops at the last character when it is not a
    whitespace. *)
Lemma lstrip_app_last (a : str) (h : N) :
  PyStr.isspace h = false ->
  PyStr.lstrip (a ++ [h]) = PyStr.lstrip a ++ [h].
Proof.
  intros H. induction a as [|c a IH]; simpl.
  - now rewrite H.
  - destruct (PyStr.isspace c); auto.
Qed.

Lemma strip_edge_trimmed (s : str) : edge_trimmed (PyStr.strip s) = true.
Proof.
  unfold edge_trimmed, PyStr.strip, PyStr.rstrip.
  rewrite rev_involutive, lstrip_starts_clean, andb_true_r.
  pose proof (lstrip_starts_clean s) as H.
  destruct (PyStr.lstrip s) as [|h t]; [reflexivity|].
  simpl in H. apply negb_true_iff in H.
  simpl rev. rewrite (lstrip_app_last _ _ H), rev_app_distr. simpl.
  now rewrite H.
Qed.

Lemma strip_fixed (s : str) : edge_trimmed s = true -> PyStr.strip s = s.
Proof.
  unfold edge_trimmed, PyStr.strip, PyStr.rstrip. intros H.
  apply andb_true_iff in H. destruct H as [H1 H2].
  rewrite (lstrip_clean _ H1), (lstrip_clean _ H2). apply rev_involutive.
Qed.

Lemma manual_rows_trimmed :
  Forall
    (fun c =>
       exists i n, iso c = Some i /\ c_country c = Some n
                   /\ edge_trimmed i = true /\ edge_trimmed n = true)
    _missing_lat_lon.
Proof. repeat constructor; eexists; eexists; repeat split. Qed.

Lemma not_excluded_kept (file : list (RawCentroid str)) :
  not_excluded (read_csv false file)
  = List.map kept
      (filter
         (fun l => negb (excluded_pair (Some (ISO l)) (Some (COUNTRY l))))
         file).
Proof.
  rewrite CentroidFacts.not_excluded_filter, OutputFacts.read_csv_kept.
  induction file as [|l file IH]; simpl; auto.
  destruct (excluded_pair (Some (ISO l)) (Some (COUNTRY l))); simpl;
    now rewrite IH.
Qed.

End StripFacts.

Section Trimming.

Context {SV : SortValues}.

(** X1.  Every row of the cleaned centroid table has an ISO code and a
    country name that are strings with no whitespace at either end,
    whatever the file holds. *)
Theorem cleaned_fields_have_no_edge_whitespace
    (file : list (RawCentroid str)) (c : Centroid) :
  In c (fetch_centroids file) ->
  exists i n, iso c = Some i /\ c_country c = Some n
              /\ edge_trimmed i = true /\ edge_trimmed n = true.
Proof.
  rewrite CentroidFacts.fetch_centroids_app. intros H.
  apply in_app_or in H. destruct H as [H|H].
  - apply (Permutation_in _ (CentroidFacts.sorted_part_perm file)) in H.
    rewrite StripFacts.not_excluded_kept, map_map in H.
    apply in_map_iff in H. destruct H as [l [<- _]].
    exists (PyStr.strip (ISO l)), (PyStr.strip (COUNTRY l)).
    repeat split; apply StripFacts.strip_edge_trimmed.
  - pose proof StripFacts.manual_rows_trimmed as M.
    rewrite Forall_forall in M. now apply M.
Qed.

(** X2.  A row of the file that is not one of the five excluded pairs and
    whose ISO code and country name have no whitespace at either end is in
    the cleaned centroid table with the same code, name and coordinates:
    the cleaning changes nothing but whitespace at the ends of the two
    fields (whitespace inside a name is kept). *)
Theorem trimmed_row_is_kept_unchanged
    (file : list (RawCentroid str)) (l : RawCentroid str) :
  In l file ->
  excluded_pair (Some (ISO l)) (Some (COUNTRY l)) = false ->
  edge_trimmed (ISO l) = true -> edge_trimmed (COUNTRY l) = true ->
  In {| c_longitude := raw_longitude l; c_latitude := raw_latitude l;
        c_country := Some (COUNTRY l); iso := Some (ISO l) |}
     (fetch_centroids file).
Proof.
  intros Hl He Hi Hc.
  rewrite CentroidFacts.fetch_centroids_app. apply in_or_app. left.
  eapply Permutation_in;
    [symmetry; apply CentroidFacts.sorted_part_perm|].
  rewrite StripFacts.not_excluded_kept, map_map.
  apply in_map_iff. exists l. split.
  - unfold cleaned, kept. simpl.
    now rewrite (StripFacts.strip_fixed _ Hi), (StripFacts.strip_fixed _ Hc).
  - apply filter_In. split; auto. now rewrite He.
Qed.

(** X3.  The cleaned centroid table has one row per row of the file that
    is not an excluded pair, and four more: it never has fewer than four
    rows, nor more than the file has plus four. *)
Theorem cleaned_table_size (file : list (RawCentroid str)) :
  List.length (fetch_centroids file)
  = List.length
      (filter
         (fun l => negb (excluded_pair (Some (ISO l)) (Some (COUNTRY l))))
         file) + 4
  /\ 4 <= List.length (fetch_centroids file) <= List.length file + 4.
Proof.
  assert (E : List.length (fetch_centroids file)
              = List.length
                  (filter
                     (fun l =>
                        negb (excluded_pair (Some (ISO l)) (Some (COUNTRY l))))
                     file) + 4).
  { rewrite CentroidFacts.fetch_centroids_app, length_app.
    rewrite (Permutation_length (CentroidFacts.sorted_part_perm file)).
    rewrite StripFacts.not_excluded_kept, !length_map. reflexivity. }
  split; [exact E|].
  pose proof (filter_length_le
                (fun l => negb (excluded_pair (Some (ISO l)) (Some (COUNTRY l))))
                file).
  lia.
Qed.

End Trimming.

(** The theorem X1 at a file whose only row has whitespace around both
    fields. *)
Lemma cleaned_fields_example :
  let file := [csv_row (lit "  FR ") (lit " France  ")] in
  let c := {| c_longitude := 2.5%Q; c_latitude := 46.5%Q;
              c_country := Some (lit "France"); iso := Some (lit "FR") |} in
  In c (fetch_centroids (SV := insertion_sort_values) file)
  /\ exists i n, iso c = Some i /\ c_country c = Some n
                 /\ edge_trimmed i = true /\ edge_trimmed n = true.
Proof.
  intros file c.
  assert (H : In c (fetch_centroids (SV := insertion_sort_values) file))
    by (left; reflexivity).
  split; [exact H|].
  exact (cleaned_fields_have_no_edge_whitespace
           (SV := insertion_sort_values) file c H).
Defined.

(** The theorem X2 at the row ("BQ", "Bonaire, Sint Eustatius and Saba"),
    which has the ISO code of two excluded pairs and inner whitespace. *)
Lemma trimmed_row_example :
  let l := csv_row (lit "BQ") (lit "Bonaire, Sint Eustatius and Saba") in
  In {| c_longitude := raw_longitude l; c_latitude := raw_latitude l;
        c_country := Some (COUNTRY l); iso := Some (ISO l) |}
     (fetch_centroids (SV := insertion_sort_values)
        [csv_row (lit "BQ") (lit "Saba"); l]).
Proof.
  intros l.
  apply (trimmed_row_is_kept_unchanged (SV := insertion_sort_values)
           [csv_row (lit "BQ") (lit "Saba"); l] l).
  - right. left. reflexivity.
  - reflexivity.
  - reflexivity.
  - reflexivity.
Defined.

(* ================================================================== *)
(** * Further properties: the final frame and the run *)

Module RunFacts.

(** A sorted column has its strings first and its NaN last. *)
Lemma sorted_by_split {A} (key : A -> option str) (l : list A) :
  sorted_by key l ->
  exists a b, l = a ++ b
              /\ Forall (fun x => key x <> None) a
              /\ Forall (fun x => key x = None) b.
Proof.
  unfold sorted_by. induction 1 as [|x l Hs IH Hx].
  - exists [], []. repeat split; constructor.
  - destruct (key x) as [k|] eqn:E.
    + destruct IH as [a [b [-> [Ha Hb]]]].
      exists (x :: a), b. repeat split; auto.
      constructor; auto. congruence.
    + exists [], (x :: l). repeat split; auto.
      constructor; auto.
      eapply Forall_impl; [|exact Hx]. intros y Hy. cbv beta in Hy.
      destruct (key y); [discriminate|reflexivity].
Qed.

(** Every centroid row is in the merged table, joined or alone. *)
Lemma centroid_in_merge (un_data : list Classification)
    (centroids : list Centroid) (c : Centroid) :
  In c centroids ->
  exists m, In m (merge_tables un_data centroids) /\ carries_centroid c m.
Proof.
  intros Hc.
  destruct (filter (fun l => on_iso2_iso l c) un_data) as [|l ls] eqn:E.
  - exists (fst (merged_row (None, Some c))). split; [|repeat split].
    apply ReconcileFacts.in_merge_tables. right; right. exists c.
    repeat split; auto. intros l Hl F. apply PandasFacts.key_eqb_eq in F.
    pose proof (proj1 (MergeFacts.filter_nil_iff _ _) E l Hl) as G.
    unfold on_iso2_iso in G. simpl in G. congruence.
  - assert (Hl : In l (filter (fun l => on_iso2_iso l c) un_data))
      by (rewrite E; now left).
    apply filter_In in Hl. destruct Hl as [Hl F].
    apply PandasFacts.key_eqb_eq in F.
    exists (fst (merged_row (Some l, Some c))). split; [|repeat split].
    apply ReconcileFacts.in_merge_tables. left. exists l, c. auto.
Qed.

(** A merged row has the country of a centroid row, or none. *)
Lemma merged_country (un_data : list Classification)
    (centroids : list Centroid) (m : Merged) :
  In m (merge_tables un_data centroids) ->
  (longitude m = None /\ latitude m = None /\ country m = None
   /\ exists l, In l un_data
                /\ (forall c, In c centroids -> un_iso2 l <> iso c)
                /\ m = fst (merged_row (Some l, None)))
  \/ exists c, In c centroids /\ carries_centroid c m.
Proof.
  intros Hm. apply ReconcileFacts.in_merge_tables in Hm.
  destruct Hm as [[l [c [Hl [Hc [E ->]]]]]
                 |[[l [Hl [Hn ->]]]|[c [Hc [Hn ->]]]]].
  - right. exists c. repeat split; auto.
  - left. repeat split; auto. exists l. auto.
  - right. exists c. repeat split; auto.
Qed.

Lemma fetch_centroids_country {SV : SortValues}
    (file : list (RawCentroid str)) (c : Centroid) :
  In c (fetch_centroids file) -> c_country c <> None.
Proof.
  rewrite CentroidFacts.fetch_centroids_app. intros H.
  apply in_app_or in H. destruct H as [H|H].
  - apply (Permutation_in _ (CentroidFacts.sorted_part_perm file)) in H.
    rewrite StripFacts.not_excluded_kept, map_map in H.
    apply in_map_iff in H. destruct H as [l [<- _]]. discriminate.
  - simpl in H. repeat (destruct H as [<-|H]; [discriminate|]). destruct H.
Qed.

Lemma non_country_rows_coded :
  Forall
    (fun r : Row Z =>
       remapped (cols r) = Some (m49_comtrade r)
       /\ country (cols r) <> None
       /\ longitude (cols r) = None /\ latitude (cols r) = None)
    non_country_rows.
Proof. repeat constructor; discriminate. Qed.

Section WithSort.

Context {SV : SortValues}.

(** The rows of the final frame. *)
Lemma in_final_frame (un_data : list Classification)
    (centroids : list Centroid) (printed : list str) (rows : list (Row Z))
    (r : Row Z) :
  reconcile un_data centroids = (printed, Ok rows) ->
  (In r rows <->
   (exists m, In m (merge_tables un_data centroids)
              /\ uncoerced r = source_row m)
   \/ In r non_country_rows).
Proof.
  intros H. apply ReconcileFacts.reconcile_Ok in H.
  destruct H as [from_sources [P [E _]]].
  assert (F : In r from_sources <->
              exists m, In m (merge_tables un_data centroids)
                        /\ uncoerced r = source_row m).
  { split.
    - intros Hr. apply (in_map uncoerced) in Hr. rewrite E in Hr.
      apply in_map_iff in Hr. destruct Hr as [m [Hm Hin]]. eauto.
    - intros [m [Hm Hu]]. apply (in_map source_row) in Hm.
      rewrite <- E, <- Hu in Hm. apply in_map_iff in Hm.
      destruct Hm as [x [Hx Hin]].
      apply ReconcileFacts.uncoerced_injective in Hx. now subst x. }
  rewrite <- F. split.
  - intros Hr. apply (Permutation_in _ (Permutation_sym P)) in Hr.
    now apply in_app_or in Hr.
  - intros Hr. apply (Permutation_in _ P). now apply in_or_app.
Qed.

(** A row of the UN table whose code no centroid row has is in the final
    frame, alone. *)
Lemma un_only_row_in_frame (table : list (RawUn str))
    (centroids : list Centroid) (printed : list str) (rows : list (Row Z))
    (u : RawUn str) :
  reconcile (fetch_un_data table) centroids = (printed, Ok rows) ->
  In u table ->
  (forall c, In c centroids -> iso c <> Some (ISO_alpha2_Code u)) ->
  exists r, In r rows /\ country (cols r) = None
            /\ row_values r = un_only_record u.
Proof.
  intros H Hu Hun.
  set (m := fst (merged_row (Some (classification_of u), None))).
  exists {| cols := m; m49_comtrade := M49_Code u;
            non_country_region := false |}.
  split; [|split; reflexivity].
  apply (in_final_frame _ _ _ H). left. exists m. split; [|reflexivity].
  apply ReconcileFacts.in_merge_tables. right; left.
  exists (classification_of u). split; [|split]; auto.
  - rewrite UnFacts.fetch_un_data_map. now apply in_map.
  - intros c Hc E. apply (Hun c Hc). now rewrite <- E.
Qed.

Lemma main_Ok (file : list (RawCentroid str)) (table : list (RawUn str))
    (printed : list str) (csv : Csv) :
  main file table = (printed, Ok csv) ->
  exists printed' rows,
    reconcile (fetch_un_data table) (fetch_centroids file)
    = (printed', Ok rows)
    /\ csv = {| header := output_columns;
                records := List.map row_values rows |}.
Proof.
  rewrite MainFacts.main_unfold.
  destruct (reconcile (fetch_un_data table) (fetch_centroids file))
    as [printed' [rows|e]]; [|discriminate].
  intros [= _ <-]. eauto.
Qed.

End WithSort.

End RunFacts.

Section Further.

Context {SV : SortValues}.


(** X5.  What the override loop prints depends on the centroid table only:
    the message of an override is printed exactly when no centroid row has
    its country name, whatever the classification table holds, because the
    merged country column is the centroid one and every centroid row is in
    the merge. *)
Theorem diagnostics_depend_on_centroids_only (un_data : list Classification)
    (centroids : list Centroid) :
  fst (reconcile un_data centroids)
  = List.map (fun e : Z * str => not_found_message (snd e))
      (filter
         (fun e : Z * str =>
            negb (existsb (fun c => eq_cell (c_country c) (snd e)) centroids))
         alternate_comtrade_m49_codes).
Proof.
  rewrite ReconcileFacts.reconcile_unfold. cbn [fst]. unfold diagnostics.
  f_equal. apply filter_ext. intros e. f_equal.
  destruct (existsb (fun c => eq_cell (c_country c) (snd e)) centroids) eqn:E.
  - apply existsb_exists in E. destruct E as [c [Hc E]].
    apply existsb_exists.
    destruct (RunFacts.centroid_in_merge un_data _ _ Hc) as [m [Hm [_ [_ Hk]]]].
    exists m. split; auto. now rewrite Hk.
  - destruct (existsb (fun r => eq_cell (country r) (snd e))
                (merge_tables un_data centroids)) eqn:F; auto.
    apply existsb_exists in F. destruct F as [m [Hm F]].
    apply RunFacts.merged_country in Hm.
    destruct Hm as [[_ [_ [Hn _]]]|[c [Hc [_ [_ Hk]]]]].
    + rewrite Hn in F. discriminate.
    + assert (X : existsb (fun c => eq_cell (c_country c) (snd e)) centroids
                  = true)
        by (apply existsb_exists; exists c; split; auto; now rewrite <- Hk).
      congruence.
Qed.

(** X6.  A run writes its file only if the UN table has a row for each of
    the four manual territories, with the ISO-alpha2 codes HK, MO, AX and
    EH: a manual row without a match has no M49 code and no override, and
    stops the run. *)
Theorem written_file_needs_manual_territories
    (file : list (RawCentroid str)) (table : list (RawUn str))
    (printed : list str) (csv : Csv) (code : str) :
  main file table = (printed, Ok csv) ->
  In code [lit "HK"; lit "MO"; lit "AX"; lit "EH"] ->
  exists u, In u table /\ ISO_alpha2_Code u = code.
Proof.
  intros H Hcode. apply RunFacts.main_Ok in H.
  destruct H as [printed' [rows [H _]]].
  assert (Hc : exists c, In c (fetch_centroids file) /\ iso c = Some code
                         /\ is_override_name (c_country c) = false).
  { assert (Hi : In (Some code) (List.map iso _missing_lat_lon)).
    { change (In (Some code) (List.map Some
                [lit "HK"; lit "MO"; lit "AX"; lit "EH"])).
      now apply in_map. }
    apply in_map_iff in Hi. destruct Hi as [c [Ei Hc]].
    exists c. split; [|split; [exact Ei|]].
    - rewrite CentroidFacts.fetch_centroids_app. apply in_or_app. now right.
    - simpl in Hc.
      repeat (destruct Hc as [<-|Hc]; [reflexivity|]). destruct Hc. }
  destruct Hc as [c [Hc [Ei Ho]]].
  destruct (existsb (fun l => key_eqb (un_iso2 l) (iso c))
              (fetch_un_data table)) eqn:E.
  - apply existsb_exists in E. destruct E as [l [Hl E]].
    apply PandasFacts.key_eqb_eq in E.
    rewrite UnFacts.fetch_un_data_map in Hl. apply in_map_iff in Hl.
    destruct Hl as [u [<- Hu]]. exists u. split; auto.
    simpl in E. rewrite Ei in E. now injection E.
  - exfalso.
    assert (R : snd (reconcile (fetch_un_data table) (fetch_centroids file))
                = Raise IntCastingNaNError).
    { apply MainFacts.reconcile_Raise_iff. exists c. repeat split; auto.
      intros l Hl F.
      assert (X : existsb (fun l => key_eqb (un_iso2 l) (iso c))
                    (fetch_un_data table) = true).
      { apply existsb_exists. exists l. split; auto.
        now apply PandasFacts.key_eqb_eq. }
      congruence. }
    rewrite H in R. discriminate.
Qed.

(** X7.  In the final frame every row, synthetic or not, has the Comtrade
    code the override table gives to its country, and its own M49 code when
    its country is no override name; a row without an M49 code is therefore
    a row of France, Norway, India, Switzerland or United States. *)
Theorem final_frame_comtrade_code (un_data : list Classification)
    (centroids : list Centroid) (printed : list str) (rows : list (Row Z))
    (r : Row Z) :
  reconcile un_data centroids = (printed, Ok rows) ->
  In r rows ->
  (forall code name,
      In (code, name) alternate_comtrade_m49_codes ->
      country (cols r) = Some name -> m49_comtrade r = code)
  /\ ((forall code name,
          In (code, name) alternate_comtrade_m49_codes ->
          country (cols r) <> Some name) ->
      m49 (cols r) = Some (m49_comtrade r))
  /\ (m49 (cols r) = None -> is_override_name (country (cols r)) = true).
Proof.
  intros H Hr.
  assert (E : remapped (cols r) = Some (m49_comtrade r)).
  { apply (RunFacts.in_final_frame _ _ r H) in Hr. destruct Hr as [[m [_ Hu]]|Hr].
    - destruct r as [c z n]. unfold uncoerced, source_row in Hu. simpl in *.
      injection Hu as -> Hz _. now symmetry.
    - pose proof RunFacts.non_country_rows_coded as N.
      rewrite Forall_forall in N. now apply N. }
  split; [|split].
  - intros code name Hin Hc.
    pose proof (ComtradeFacts.remapped_override _ Hin Hc) as X. congruence.
  - intros Hn. rewrite <- E. symmetry.
    now apply ComtradeFacts.remapped_default.
  - intros Hn. destruct (is_override_name (country (cols r))) eqn:O; auto.
    assert (X : remapped (cols r) = None)
      by (apply MainFacts.remapped_None; auto).
    congruence.
Qed.

(** X8.  In the written file the records that have a country come first
    and those that have none come last; the records without a country are
    exactly the rows of the UN table whose ISO-alpha2 code is the code of no
    cleaned centroid row, written with no country and no coordinates and
    with m49_comtrade equal to m49. *)
Theorem records_without_country_come_last
    (file : list (RawCentroid str)) (table : list (RawUn str))
    (printed : list str) (csv : Csv) :
  main file table = (printed, Ok csv) ->
  exists named unnamed,
    records csv = named ++ unnamed
    /\ Forall (fun rec => record_country rec <> None) named
    /\ Forall (fun rec => record_country rec = None) unnamed
    /\ (forall rec,
          In rec unnamed <->
          exists u, In u table
                    /\ (forall c, In c (fetch_centroids file) ->
                                  iso c <> Some (ISO_alpha2_Code u))
                    /\ rec = un_only_record u).
Proof.
  intros H. apply RunFacts.main_Ok in H.
  destruct H as [printed' [rows [H ->]]]. cbn [records].
  pose proof (ReconcileFacts.reconcile_Ok _ _ H) as [_ [_ [_ S]]].
  apply RunFacts.sorted_by_split in S. destruct S as [a [b [Eab [Ha Hb]]]].
  exists (List.map row_values a), (List.map row_values b).
  split; [|split; [|split]].
  - now rewrite Eab, map_app.
  - apply Forall_map. eapply Forall_impl; [|exact Ha]. intros r Hr.
    now rewrite OutputFacts.record_country_row_values.
  - apply Forall_map. eapply Forall_impl; [|exact Hb]. intros r Hr.
    now rewrite OutputFacts.record_country_row_values.
  - intros rec. rewrite Forall_forall in Ha, Hb. split.
    + intros Hrec. apply in_map_iff in Hrec. destruct Hrec as [r [<- Hr]].
      pose proof (Hb r Hr) as Hn.
      assert (Hin : In r rows) by (rewrite Eab; apply in_or_app; now right).
      apply (RunFacts.in_final_frame _ _ r H) in Hin.
      destruct Hin as [[m [Hm Hu]]|Hin].
      * destruct r as [c z n]. unfold uncoerced, source_row in Hu.
        simpl in Hu, Hn. injection Hu as -> Hz ->.
        apply RunFacts.merged_country in Hm.
        destruct Hm as [[_ [_ [_ [l [Hl [Hun ->]]]]]]|[c [Hc [_ [_ Hk]]]]].
        -- rewrite UnFacts.fetch_un_data_map in Hl. apply in_map_iff in Hl.
           destruct Hl as [u [<- Hu]]. exists u. split; [exact Hu|]. split.
           ++ intros c Hc E. apply (Hun c Hc). now rewrite E.
           ++ unfold remapped in Hz. simpl in Hz. injection Hz as ->.
              reflexivity.
        -- exfalso. apply (RunFacts.fetch_centroids_country _ _ Hc).
           congruence.
      * exfalso. pose proof RunFacts.non_country_rows_coded as N.
        rewrite Forall_forall in N. destruct (N r Hin) as [_ [N2 _]].
        contradiction.
    + intros [u [Hu [Hun ->]]].
      destruct (RunFacts.un_only_row_in_frame _ _ _ H Hu Hun)
        as [r [Hr [Hn Ev]]].
      rewrite Eab in Hr. apply in_app_or in Hr. destruct Hr as [Hr|Hr].
      * exfalso. now apply (Ha r Hr).
      * apply in_map_iff. exists r. split; [exact Ev|exact Hr].
Qed.

(** X9.  In the final frame a row has both coordinates or neither; when it
    has them they are, with its country, those of one centroid row.  The
    synthetic rows and the classification rows without a centroid have
    none. *)
Theorem coordinates_come_from_a_centroid (un_data : list Classification)
    (centroids : list Centroid) (printed : list str) (rows : list (Row Z))
    (r : Row Z) :
  reconcile un_data centroids = (printed, Ok rows) ->
  In r rows ->
  (longitude (cols r) = None /\ latitude (cols r) = None)
  \/ exists c, In c centroids
               /\ longitude (cols r) = Some (c_longitude c)
               /\ latitude (cols r) = Some (c_latitude c)
               /\ country (cols r) = c_country c.
Proof.
  intros H Hr. apply (RunFacts.in_final_frame _ _ r H) in Hr.
  destruct Hr as [[m [Hm Hu]]|Hr].
  - assert (E : cols r = m).
    { destruct r. unfold uncoerced, source_row in Hu. simpl in *.
      now injection Hu. }
    rewrite E. apply RunFacts.merged_country in Hm.
    destruct Hm as [[H1 [H2 _]]|[c [Hc Hk]]]; [left; auto|].
    right. exists c. split; auto.
  - left. pose proof RunFacts.non_country_rows_coded as N.
    rewrite Forall_forall in N. destruct (N r Hr) as [_ [_ N3]]. exact N3.
Qed.

(** X10.  The written file has one record per row of the merged table and
    seven more, hence never fewer than eleven records (the four manual
    territories and the seven synthetic rows). *)
Theorem written_file_record_count
    (file : list (RawCentroid str)) (table : list (RawUn str))
    (printed : list str) (csv : Csv) :
  main file table = (printed, Ok csv) ->
  List.length (records csv)
  = List.length (merge_tables (fetch_un_data table) (fetch_centroids file)) + 7
  /\ 11 <= List.length (records csv).
Proof.
  intros H. apply RunFacts.main_Ok in H.
  destruct H as [printed' [rows [H ->]]]. cbn [records].
  apply ReconcileFacts.reconcile_Ok in H.
  destruct H as [from_sources [P [E _]]].
  assert (L : List.length (List.map row_values rows)
              = List.length (merge_tables (fetch_un_data table)
                               (fetch_centroids file)) + 7).
  { rewrite length_map, <- (Permutation_length P), length_app.
    apply (f_equal (@List.length _)) in E. rewrite !length_map in E.
    rewrite E. reflexivity. }
  split; [exact L|]. rewrite L, FrameFacts.length_merge_tables.
  pose proof (MergeFacts.merge_outer_ge_right on_iso2_iso
                (fetch_un_data table) (fetch_centroids file)) as G.
  rewrite CentroidFacts.fetch_centroids_app, length_app in G. simpl in G.
  rewrite CentroidFacts.fetch_centroids_app. lia.
Qed.

(** X11.  In the final frame a row without an M49 code has none of the
    classification columns: no region, no subregion, no ISO code and no LDC
    flag.  It is a centroid row alone, and the ISO code it had in the
    centroid table is not kept, since the [iso] column is dropped after the
    merge. *)
Theorem row_without_m49_has_no_iso_code (un_data : list Classification)
    (centroids : list Centroid) (printed : list str) (rows : list (Row Z))
    (r : Row Z) :
  reconcile un_data centroids = (printed, Ok rows) ->
  In r rows ->
  m49 (cols r) = None ->
  no_classification (cols r)
  /\ exists c, In c centroids
               /\ (forall l, In l un_data -> un_iso2 l <> iso c)
               /\ carries_centroid c (cols r).
Proof.
  intros H Hr Hn. apply (RunFacts.in_final_frame _ _ r H) in Hr.
  destruct Hr as [[m [Hm Hu]]|Hr].
  - assert (E : cols r = m).
    { destruct r. unfold uncoerced, source_row in Hu. simpl in *.
      now injection Hu. }
    rewrite E in *. apply ReconcileFacts.in_merge_tables in Hm.
    destruct Hm as [[l [c [_ [_ [_ ->]]]]]|[[l [_ [_ ->]]]|[c [Hc [Hun ->]]]]];
      try discriminate.
    split; [repeat split|]. exists c. repeat split; auto.
  - exfalso. simpl in Hr.
    repeat (destruct Hr as [<-|Hr]; [discriminate|]). destruct Hr.
Qed.


End Further.

(** The theorem X6 at a run that writes its file: the UN table has France
    and the four manual territories, the centroid file has France. *)
Lemma written_file_needs_manual_territories_example :
  let file := [csv_row (lit "FR") (lit "France")] in
  let table :=
    un_row (lit "France") 250 (lit "FR") (lit "FRA") :: un_manual_rows in
  (exists csv, snd (main (SV := insertion_sort_values) file table) = Ok csv)
  /\ exists u, In u table /\ ISO_alpha2_Code u = lit "HK".
Proof.
  intros file table.
  destruct (main (SV := insertion_sort_values) file table)
    as [printed [csv|e]] eqn:E.
  - split; [exists csv; reflexivity|].
    apply (written_file_needs_manual_territories
             (SV := insertion_sort_values) file table E).
    left. reflexivity.
  - vm_compute in E. discriminate E.
Defined.

(** The theorem X7 at a run whose centroid row of France matches no
    classification row: the final frame has a row without an M49 code, and
    every such row has an override name. *)
Lemma final_frame_comtrade_code_example :
  let un_data := fetch_un_data un_manual_rows in
  let centroids :=
    fetch_centroids (SV := insertion_sort_values)
      [csv_row (lit "FR") (lit "France")] in
  exists rows,
    snd (reconcile (SV := insertion_sort_values) un_data centroids) = Ok rows
    /\ existsb
         (fun r : Row Z =>
            match m49 (cols r) with None => true | Some _ => false end)
         rows = true
    /\ Forall
         (fun r : Row Z =>
            m49 (cols r) = None ->
            is_override_name (country (cols r)) = true)
         rows.
Proof.
  intros un_data centroids.
  destruct (reconcile (SV := insertion_sort_values) un_data centroids)
    as [printed [rows|e]] eqn:E.
  - exists rows. split; [reflexivity|]. split.
    + vm_compute in E. injection E as _ <-. reflexivity.
    + apply Forall_forall. intros r Hr.
      apply (final_frame_comtrade_code (SV := insertion_sort_values)
               un_data centroids r E Hr).
  - vm_compute in E. discriminate E.
Defined.

(** The theorem X8 at a run whose UN table has Germany and whose centroid
    file does not: the record of Germany has no country and is among the
    last records. *)
Lemma records_without_country_example :
  let file := [csv_row (lit "FR") (lit "France")] in
  let germany := un_row (lit "Germany") 276 (lit "DE") (lit "DEU") in
  let table :=
    germany :: un_row (lit "France") 250 (lit "FR") (lit "FRA")
      :: un_manual_rows in
  exists csv named unnamed,
    snd (main (SV := insertion_sort_values) file table) = Ok csv
    /\ records csv = named ++ unnamed
    /\ Forall (fun rec => record_country rec <> None) named
    /\ In (un_only_record germany) unnamed.
Proof.
  intros file germany table.
  destruct (main (SV := insertion_sort_values) file table)
    as [printed [csv|e]] eqn:E.
  - destruct (records_without_country_come_last
                (SV := insertion_sort_values) file table E)
      as [named [unnamed [H1 [H2 [_ H4]]]]].
    exists csv, named, unnamed. repeat split; auto.
    apply H4. exists germany. split; [left; reflexivity|]. split; auto.
    intros c Hc. simpl in Hc.
    repeat (destruct Hc as [<-|Hc]; [discriminate|]). destruct Hc.
  - vm_compute in E. discriminate E.
Defined.

(** The theorem X9 at the run of France and the four manual territories. *)
Lemma coordinates_come_from_a_centroid_example :
  let un_data :=
    fetch_un_data (un_row (lit "France") 250 (lit "FR") (lit "FRA")
                     :: un_manual_rows) in
  let centroids :=
    fetch_centroids (SV := insertion_sort_values)
      [csv_row (lit "FR") (lit "France")] in
  exists rows,
    snd (reconcile (SV := insertion_sort_values) un_data centroids) = Ok rows
    /\ Forall
         (fun r : Row Z =>
            (longitude (cols r) = None /\ latitude (cols r) = None)
            \/ exists c, In c centroids
                         /\ longitude (cols r) = Some (c_longitude c)
                         /\ latitude (cols r) = Some (c_latitude c)
                         /\ country (cols r) = c_country c)
         rows.
Proof.
  intros un_data centroids.
  destruct (reconcile (SV := insertion_sort_values) un_data centroids)
    as [printed [rows|e]] eqn:E.
  - exists rows. split; [reflexivity|].
    apply Forall_forall. intros r Hr.
    apply (coordinates_come_from_a_centroid (SV := insertion_sort_values)
             un_data centroids r E Hr).
  - vm_compute in E. discriminate E.
Defined.

(** The theorem X10 at the same run: five merged rows, twelve records. *)
Lemma written_file_record_count_example :
  let file := [csv_row (lit "FR") (lit "France")] in
  let table :=
    un_row (lit "France") 250 (lit "FR") (lit "FRA") :: un_manual_rows in
  exists csv,
    snd (main (SV := insertion_sort_values) file table) = Ok csv
    /\ List.length (records csv) = 12.
Proof.
  intros file table.
  destruct (main (SV := insertion_sort_values) file table)
    as [printed [csv|e]] eqn:E.
  - exists csv. split; [reflexivity|].
    destruct (written_file_record_count (SV := insertion_sort_values)
                file table E) as [L _].
    rewrite L. reflexivity.
  - vm_compute in E. discriminate E.
Defined.

(** The theorem X11 at the run whose centroid row of France matches no
    classification row. *)
Lemma row_without_m49_example :
  let un_data := fetch_un_data un_manual_rows in
  let centroids :=
    fetch_centroids (SV := insertion_sort_values)
      [csv_row (lit "FR") (lit "France")] in
  exists rows,
    snd (reconcile (SV := insertion_sort_values) un_data centroids) = Ok rows
    /\ existsb
         (fun r : Row Z =>
            match m49 (cols r) with None => true | Some _ => false end)
         rows = true
    /\ Forall
         (fun r : Row Z => m49 (cols r) = None -> no_classification (cols r))
         rows.
Proof.
  intros un_data centroids.
  destruct (reconcile (SV := insertion_sort_values) un_data centroids)
    as [printed [rows|e]] eqn:E.
  - exists rows. split; [reflexivity|]. split.
    + vm_compute in E. injection E as _ <-. reflexivity.
    + apply Forall_forall. intros r Hr Hn.
      apply (row_without_m49_has_no_iso_code (SV := insertion_sort_values)
               un_data centroids r E Hr Hn).
  - vm_compute in E. discriminate E.
Defined.

